(** * op-geth SUAVE builder: slot attributes, build requests and bundles

    A shallow embedding of

    - [core/types] [SBundle], [BundleBody], [SBundleFromSuave] and their
      methods ([Hash], [GetRefundConfig], [MarshalJSON], [UnmarshalJSON]),
    - [core/types] [BuilderPayloadAttributes],
    - [suave] [SuaveAPI] (the dispatch loop of [Start], [OnPayloadAttribute],
      [BuildEthBlock], [BuildEthBlockFromBundles]) and
    - [suave] [OpBeaconClient] (the subscription loop and [Stop]),

    followed by the properties of that code.

    Conventions.  A Go [uint64] is an [N]; the code only stores and compares
    them, it does no arithmetic on them.  A Go [int] and a [*big.Int] are [Z].
    A nullable pointer [*T] is an [option T].  A [[]byte], a [common.Hash]
    ([32]byte) and a [common.Address] ([20]byte) are [list byte].  A Go
    function returning [(T, error)] returns a [result T]. *)

From Stdlib Require Import String.
From Stdlib Require Import List Bool Arith NArith ZArith Lia.
From Stdlib Require Import Strings.Byte.
Import ListNotations.

Set Implicit Arguments.

(** ** Go values *)

(** The [error] values the code creates or passes on.  [ErrParentNotFound h]
    is [fmt.Errorf("could not find parent block with hash %s", h)];
    [ErrExternal msg] is an error produced by a collaborator (signer,
    transaction codec, JSON codec, execution backend). *)
Inductive error : Type :=
| ErrIncorrectRefundConfig
| ErrParentNotFound (h : list byte)
| ErrExternal (msg : string).

Inductive result (A : Type) : Type :=
| Ok (a : A)
| Err (e : error).
Arguments Ok {A} a.
Arguments Err {A} e.

Module Common.

Definition Bytes := list byte.

(** [common.Hash], 32 bytes. *)
Definition Hash := list byte.
Definition HashLength : nat := 32.
(** The zero value of [common.Hash]. *)
Definition zeroHash : Hash := repeat x00 HashLength.

(** [common.Address], 20 bytes. *)
Definition Address := list byte.
Definition zeroAddress : Address := repeat x00 20.

(** [common.BytesToHash]: keeps the last 32 bytes of a longer input and
    pads a shorter one with zero bytes on the left. *)
Definition BytesToHash (b : Bytes) : Hash :=
  if HashLength <? length b
  then skipn (length b - HashLength) b
  else repeat x00 (HashLength - length b) ++ b.

End Common.
Import Common.

(** What the code uses of the packages it imports: the transaction type with
  its hash and binary codec, the legacy Keccak-256 digest, and the types it
  only passes along. *)
Class Externals : Type := {
Transaction : Type;
Withdrawal : Type;
Block : Type;
ExecutionPayloadEnvelope : Type;
(** [tx.Hash()] *)
TxHash : Transaction -> Hash;
(** [tx.MarshalBinary()] *)
MarshalBinary : Transaction -> result Bytes;
(** [tx.UnmarshalBinary(bytes)] on a fresh transaction *)
UnmarshalBinary : Bytes -> result Transaction;
(** the digest of [sha3.NewLegacyKeccak256()] over all bytes written *)
keccak256 : Bytes -> Bytes;
(** [engine.BlockToExecutableData(block, profit, nil)] *)
BlockToExecutableData : Block -> Z -> ExecutionPayloadEnvelope
}.

(** The [Signer] interface, as far as [GetRefundConfig] uses it. *)
Record Signer `{Externals} : Type := {
Sender : Transaction -> result Address
}.

(** ** core/types: bundles *)

Module BundleInclusion.
Record t : Type := mk {
  BlockNumber : N;
  MaxBlockNumber : N
}.
End BundleInclusion.

Module RefundConstraint.
Record t : Type := mk {
  BodyIdx : Z;
  Percent : Z
}.
End RefundConstraint.

Module RefundConfig.
Record t : Type := mk {
  Address : Common.Address;
  Percent : Z
}.
End RefundConfig.

Module BundleValidity.
Record t : Type := mk {
  Refund : list RefundConstraint.t;
  RefundConfig : list RefundConfig.t
}.
End BundleValidity.

Section Bundles.
Context `{Externals}.

(** [SBundle] and [BundleBody].  The field [hash] is the [atomic.Value]
    cache: [None] until [Hash] has stored a value.  A nested bundle is held
    by value: two bodies never share one nested bundle. *)
Inductive SBundle : Type :=
  mkSBundle {
    Inclusion : BundleInclusion.t;
    Body : list BundleBody;
    Validity : BundleValidity.t;
    hash : option Hash
  }
with BundleBody : Type :=
  mkBundleBody {
    Tx : option Transaction;
    Bundle : option SBundle;
    CanRevert : bool
  }.


(** [hasher.Write]: the hasher holds the bytes written so far. *)
Definition hasher_Write (written : Bytes) (p : Bytes) : Bytes := written ++ p.

(** [hasher.Sum(nil)] *)
Definition hasher_Sum (written : Bytes) : Bytes := keccak256 written.

(** The last part of [SBundle.Hash]: the hash of a bundle from the hashes of
    its body elements. *)
Definition combineBodyHashes (bodyHashes : list Hash) : Hash :=
  if length bodyHashes =? 1
  then nth 0 bodyHashes zeroHash
  else BytesToHash (hasher_Sum (fold_left hasher_Write bodyHashes [])).

(** [SBundle.Hash], with the cache made explicit: the result is the hash and
    the bundle after the call, in which the caches of the bundle and of the
    nested bundles that were visited are filled.  [hashBody] is one round of
    the loop over [b.Body]: an element with neither a transaction nor a bundle
    leaves the zero value of [bodyHashes[i]] in place. *)
Fixpoint SBundle_Hash (b : SBundle) : Hash * SBundle :=
  match b with
  | mkSBundle incl body val cache =>
      match cache with
      | Some h => (h, b)
      | None =>
          let hashBody (e : BundleBody) : Hash * BundleBody :=
            match e with
            | mkBundleBody (Some tx) _ _ => (TxHash tx, e)
            | mkBundleBody None (Some nested) canRevert =>
                let '(h, nested') := SBundle_Hash nested in
                (h, mkBundleBody None (Some nested') canRevert)
            | mkBundleBody None None _ => (zeroHash, e)
            end in
          let hashed := map hashBody body in
          let h := combineBodyHashes (map fst hashed) in
          (h, mkSBundle incl (map snd hashed) val (Some h))
      end
  end.

(** One round of the loop of [SBundle.Hash] over [b.Body], on its own: the
    hash written to [bodyHashes[i]] and the element after the call. *)
Definition hashBody (e : BundleBody) : Hash * BundleBody :=
  match e with
  | mkBundleBody (Some tx) _ _ => (TxHash tx, e)
  | mkBundleBody None (Some nested) canRevert =>
      let '(h, nested') := SBundle_Hash nested in
      (h, mkBundleBody None (Some nested') canRevert)
  | mkBundleBody None None _ => (zeroHash, e)
  end.

(** The element hash that [Hash] writes to [bodyHashes[i]]. *)
Definition bodyHash (e : BundleBody) : Hash := fst (hashBody e).

(** The bundle with nothing stored in its cache: a bundle as constructed. *)
Definition clearCache (b : SBundle) : SBundle :=
  mkSBundle (Inclusion b) (Body b) (Validity b) None.

(** The cache of a bundle is sound when it is empty or holds what [Hash]
    computes from the body.  Every bundle is constructed with an empty cache
    and only [Hash] stores into it. *)
Definition CacheSound (b : SBundle) : Prop :=
  hash b = None \/ hash b = Some (fst (SBundle_Hash (clearCache b))).

(** [GetRefundConfig].  [bundle.Body[0]] is read after the test
    [len(bundle.Body) == 0], here one match on the list. *)
Fixpoint GetRefundConfig (body : BundleBody) (signer : Signer)
  : result (list RefundConfig.t) :=
  match body with
  | mkBundleBody (Some tx) _ _ =>
      match Sender signer tx with
      | Err err => Err err
      | Ok address => Ok [RefundConfig.mk address 100]
      end
  | mkBundleBody None (Some (mkSBundle _ bundleBody validity _)) _ =>
      if 0 <? length (BundleValidity.RefundConfig validity)
      then Ok (BundleValidity.RefundConfig validity)
      else
        match bundleBody with
        | [] => Err ErrIncorrectRefundConfig
        | first :: _ => GetRefundConfig first signer
        end
  | mkBundleBody None None _ => Err ErrIncorrectRefundConfig
  end.

End Bundles.

(** ** core/types: the bundle wire format *)

Module RpcSBundle.
Record t : Type := mk {
  BlockNumber : option Z;
  MaxBlock : option Z;
  Txs : list Bytes;
  RevertingHashes : list Hash;
  RefundPercent : option Z
}.
End RpcSBundle.

Module SBundleFromSuave.
Section WithExternals.
Context `{Externals}.
Record t : Type := mk {
  BlockNumber : option Z;
  MaxBlock : option Z;
  Txs : list Transaction;
  RevertingHashes : list Hash;
  RefundPercent : option Z
}.
End WithExternals.
End SBundleFromSuave.

(** A JSON document.  A string that spells a hexadecimal value is kept as
    the value it spells: [JQuantity] for a [hexutil.Big], [JData] for a
    [hexutil.Bytes] and a [common.Hash]. *)
#[warnings="-register-all"]
Inductive JSON : Type :=
| JNull
| JNumber (z : Z)
| JQuantity (z : Z)
| JData (bs : Bytes)
| JArray (items : list JSON)
| JObject (fields : list (string * JSON)).

Module Json.

(** A field tagged [omitempty] whose pointer is nil is left out. *)
Definition omitempty_ptr {A} (key : string) (enc : A -> JSON) (v : option A)
  : list (string * JSON) :=
  match v with
  | Some a => [(key, enc a)]
  | None => []
  end.

(** A field tagged [omitempty] whose slice has length 0 is left out. *)
Definition omitempty_slice {A} (key : string) (enc : A -> JSON) (v : list A)
  : list (string * JSON) :=
  match v with
  | [] => []
  | _ :: _ => [(key, JArray (map enc v))]
  end.

(** [json.Marshal(&RpcSBundle{...})], following the struct tags. *)
Definition Marshal (r : RpcSBundle.t) : JSON :=
  JObject
    (omitempty_ptr "blockNumber" JQuantity (RpcSBundle.BlockNumber r)
     ++ omitempty_ptr "maxBlock" JQuantity (RpcSBundle.MaxBlock r)
     ++ [("txs"%string, JArray (map JData (RpcSBundle.Txs r)))]
     ++ omitempty_slice "revertingHashes" JData (RpcSBundle.RevertingHashes r)
     ++ omitempty_ptr "percent" JNumber (RpcSBundle.RefundPercent r)).

Fixpoint lookup (key : string) (fields : list (string * JSON)) : option JSON :=
  match fields with
  | [] => None
  | (k, v) :: rest => if String.eqb k key then Some v else lookup key rest
  end.

Definition typeError {A} : result A :=
  Err (ErrExternal "json: cannot unmarshal").

(** What a [hexutil.Big] can carry: a quantity without sign of at most 256
    bits. *)
Definition bigOnWire (v : option Z) : Prop :=
  match v with
  | Some z => (0 <= z < 2 ^ 256)%Z
  | None => True
  end.

(** [hexutil.Big] accepts a quantity without sign of at most 256 bits. *)
Definition decodeBig (j : JSON) : result Z :=
  match j with
  | JQuantity z =>
      if ((0 <=? z) && (z <? 2 ^ 256))%Z then Ok z else typeError
  | _ => typeError
  end.

Definition decodeInt (j : JSON) : result Z :=
  match j with
  | JNumber z => Ok z
  | _ => typeError
  end.

Definition decodeBytes (j : JSON) : result Bytes :=
  match j with
  | JData bs => Ok bs
  | _ => typeError
  end.

(** [common.Hash] accepts exactly 32 bytes. *)
Definition decodeHash (j : JSON) : result Hash :=
  match j with
  | JData bs => if length bs =? HashLength then Ok bs else typeError
  | _ => typeError
  end.

(** A pointer field: an absent key and [null] leave it nil. *)
Definition decodePtr {A} (dec : JSON -> result A) (v : option JSON)
  : result (option A) :=
  match v with
  | None | Some JNull => Ok None
  | Some j =>
      match dec j with
      | Ok a => Ok (Some a)
      | Err e => Err e
      end
  end.

Fixpoint decodeAll {A} (dec : JSON -> result A) (items : list JSON)
  : result (list A) :=
  match items with
  | [] => Ok []
  | j :: rest =>
      match dec j with
      | Err e => Err e
      | Ok a =>
          match decodeAll dec rest with
          | Err e => Err e
          | Ok l => Ok (a :: l)
          end
      end
  end.

(** A slice field: an absent key and [null] leave it empty. *)
Definition decodeSlice {A} (dec : JSON -> result A) (v : option JSON)
  : result (list A) :=
  match v with
  | None | Some JNull => Ok []
  | Some (JArray items) => decodeAll dec items
  | Some _ => typeError
  end.

(** [json.Unmarshal(data, &rpcSBundle)] on a zero [RpcSBundle]. *)
Definition Unmarshal (data : JSON) : result RpcSBundle.t :=
  match data with
  | JObject fields =>
      match decodePtr decodeBig (lookup "blockNumber" fields),
            decodePtr decodeBig (lookup "maxBlock" fields),
            decodeSlice decodeBytes (lookup "txs" fields),
            decodeSlice decodeHash (lookup "revertingHashes" fields),
            decodePtr decodeInt (lookup "percent" fields) with
      | Ok blockNumber, Ok maxBlock, Ok txs, Ok revertingHashes, Ok percent =>
          Ok (RpcSBundle.mk blockNumber maxBlock txs revertingHashes percent)
      | Err e, _, _, _, _
      | _, Err e, _, _, _
      | _, _, Err e, _, _
      | _, _, _, Err e, _
      | _, _, _, _, Err e => Err e
      end
  | _ => typeError
  end.

End Json.

Section WireFormat.
Context `{Externals}.

(** The first loop of [MarshalJSON]: every transaction in binary form, or
    the first error. *)
Fixpoint marshalTxs (txs : list Transaction) : result (list Bytes) :=
  match txs with
  | [] => Ok []
  | tx :: rest =>
      match MarshalBinary tx with
      | Err err => Err err
      | Ok txBytes =>
          match marshalTxs rest with
          | Err err => Err err
          | Ok l => Ok (txBytes :: l)
          end
      end
  end.

(** [SBundleFromSuave.MarshalJSON].  The [RpcSBundle] literal sets
    [BlockNumber], [Txs], [RevertingHashes] and [RefundPercent]; its
    [MaxBlock] keeps the zero value, nil. *)
Definition MarshalJSON (s : SBundleFromSuave.t) : result JSON :=
  match marshalTxs (SBundleFromSuave.Txs s) with
  | Err err => Err err
  | Ok txs =>
      let blockNumber :=
        match SBundleFromSuave.BlockNumber s with
        | Some n => Some n
        | None => None
        end in
      Ok (Json.Marshal
            (RpcSBundle.mk blockNumber None txs
               (SBundleFromSuave.RevertingHashes s)
               (SBundleFromSuave.RefundPercent s)))
  end.

(** The loop of [UnmarshalJSON]: every transaction decoded, or the first
    error. *)
Fixpoint unmarshalTxs (raw : list Bytes) : result (list Transaction) :=
  match raw with
  | [] => Ok []
  | txBytes :: rest =>
      match UnmarshalBinary txBytes with
      | Err err => Err err
      | Ok tx =>
          match unmarshalTxs rest with
          | Err err => Err err
          | Ok l => Ok (tx :: l)
          end
      end
  end.

(** [SBundleFromSuave.UnmarshalJSON]: the receiver after the call, or the
    error. *)
Definition UnmarshalJSON (data : JSON) : result SBundleFromSuave.t :=
  match Json.Unmarshal data with
  | Err err => Err err
  | Ok rpcSBundle =>
      match unmarshalTxs (RpcSBundle.Txs rpcSBundle) with
      | Err err => Err err
      | Ok txs =>
          Ok (SBundleFromSuave.mk
                (RpcSBundle.BlockNumber rpcSBundle)
                (RpcSBundle.MaxBlock rpcSBundle)
                txs
                (RpcSBundle.RevertingHashes rpcSBundle)
                (RpcSBundle.RefundPercent rpcSBundle))
      end
  end.

End WireFormat.

(** ** core/types: payload attributes and build arguments *)

Module BuilderPayloadAttributes.
Section WithExternals.
Context `{Externals}.
Record t : Type := mk {
  Timestamp : N;
  Random : Hash;
  SuggestedFeeRecipient : Address;
  Slot : N;
  HeadHash : Hash;
  Withdrawals : list Withdrawal;
  ParentBeaconBlockRoot : option Hash;
  Transactions : list Transaction;
  GasLimit : N
}.

(** The zero value of the struct. *)
Definition zero : t :=
  mk 0 zeroHash zeroAddress 0 zeroHash [] None [] 0.
End WithExternals.
End BuilderPayloadAttributes.

(** [types.BuildBlockArgs]: the fields that [BuildEthBlock] and
    [BuildEthBlockFromBundles] set.  The struct is declared elsewhere in the
    package; a field that the two literals do not name keeps its zero value
    whatever the caller sent. *)
Module BuildBlockArgs.
Section WithExternals.
Context `{Externals}.
Record t : Type := mk {
  Slot : N;
  Parent : Hash;
  Timestamp : N;
  FeeRecipient : Address;
  GasLimit : N;
  Random : Hash;
  Withdrawals : list Withdrawal;
  BeaconRoot : Hash;
  FillPending : bool;
  Transactions : list Transaction
}.
End WithExternals.
End BuildBlockArgs.

(** ** Go control flow *)

(** How a call ends: with a value, with a non-nil [error], or in a run-time
    panic. *)
Inductive panic : Type :=
| NilPointerDereference.

Inductive outcome (A : Type) : Type :=
| Returned (a : A)
| Failed (e : error)
| Panicked (p : panic).
Arguments Returned {A} a.
Arguments Failed {A} e.
Arguments Panicked {A} p.

(** One round of a [for] loop: the loop goes on, or the function returns. *)
Inductive round (St : Type) : Type :=
| Continue (s : St)
| Return (s : St).
Arguments Continue {St} s.
Arguments Return {St} s.

(** [*p]: a nil pointer panics. *)
Definition deref {A} (p : option A) : outcome A :=
  match p with
  | Some a => Returned a
  | None => Panicked NilPointerDereference
  end.

(** A call that may reach a collaborator: its outcome and the calls made,
    in order. *)
Section Exec.
Variable Call : Type.

Definition Exec (A : Type) : Type := (outcome A * list Call)%type.

Definition ret {A} (a : A) : Exec A := (Returned a, []).

Definition bind {A B} (m : Exec A) (k : A -> Exec B) : Exec B :=
  match m with
  | (Returned a, calls) => let '(o, calls') := k a in (o, calls ++ calls')
  | (Failed e, calls) => (Failed e, calls)
  | (Panicked p, calls) => (Panicked p, calls)
  end.

(** A step that reaches no collaborator. *)
Definition local {A} (o : outcome A) : Exec A := (o, []).

(** A call [c] to a collaborator that answered [r]. *)
Definition external {A} (c : Call) (r : result A) : Exec A :=
  (match r with Ok a => Returned a | Err e => Failed e end, [c]).

End Exec.
Arguments ret {Call A} a.
Arguments bind {Call A B} m k.
Arguments local {Call A} o.
Arguments external {Call A} c r.

Notation "x <- m ;; k" := (bind m (fun x => k))
  (at level 61, m at next level, right associativity).

(** ** suave: the beacon event client *)

Module Config.
Record t : Type := mk {
  Enabled : bool;
  BeaconEndpoint : string
}.
End Config.

Definition DefaultConfig : Config.t :=
  Config.mk false "http://localhost:8546".

Section Beacon.
Context `{Externals}.

(** [OpBeaconClient].  [cancelled] is the state of [ctx]: [cancelFn] sets
    it. *)
Record OpBeaconClient : Type := mkOpBeaconClient {
  cancelled : bool;
  endpoint : string
}.

Definition NewOpBeaconClient (endpoint : string) : OpBeaconClient :=
  mkOpBeaconClient false endpoint.

(** [OpBeaconClient.Stop] *)
Definition OpBeaconClient_Stop (opbc : OpBeaconClient) : OpBeaconClient :=
  mkOpBeaconClient true (endpoint opbc).

(** [OpBeaconClient.Start] returns nil. *)
Definition OpBeaconClient_Start (opbc : OpBeaconClient) : option error := None.

(** The event source behind the loop.  [SubscribeWithContext url cancelled n]
    is call number [n] of [client.SubscribeWithContext(opbc.ctx,
    "payload_attributes", handler)] on a client for [url], with the context
    in the state [cancelled]: the data of the events handed to the handler
    before the call returned, and the error it returned.
    [UnmarshalAttributes] is [json.Unmarshal(msg.Data, data)]. *)
Record EventSource : Type := mkEventSource {
  SubscribeWithContext : string -> bool -> nat -> list Bytes * option error;
  UnmarshalAttributes : Bytes -> result BuilderPayloadAttributes.t
}.

(** What the subscription loop has done so far: the calls of
    [SubscribeWithContext], the records sent on [payloadAttrC], the seconds
    slept and the calls of [log.Error]. *)
Record SubscribeState : Type := mkSubscribeState {
  subscriptions : nat;
  sent : list BuilderPayloadAttributes.t;
  slept : nat;
  logged : list error
}.

Definition noSubscription : SubscribeState := mkSubscribeState 0 [] 0 [].

(** The handler passed to [SubscribeWithContext], on one event. *)
Definition handleEvent (src : EventSource) (st : SubscribeState) (data : Bytes)
  : SubscribeState :=
  match UnmarshalAttributes src data with
  | Err err =>
      mkSubscribeState (subscriptions st) (sent st) (slept st)
        (logged st ++ [err])
  | Ok attrs =>
      mkSubscribeState (subscriptions st) (sent st ++ [attrs]) (slept st)
        (logged st)
  end.

(** The body of the [for] loop of [SubscribeToPayloadAttributesEvents]. *)
Definition subscribeRound (src : EventSource) (opbc : OpBeaconClient)
  (st : SubscribeState) : round SubscribeState :=
  let eventsURL := (endpoint opbc ++ "/events")%string in
  let '(events, err) :=
    SubscribeWithContext src eventsURL (cancelled opbc) (subscriptions st) in
  let st1 :=
    mkSubscribeState (S (subscriptions st)) (sent st) (slept st) (logged st) in
  let st2 := fold_left (handleEvent src) events st1 in
  match err with
  | Some e =>
      Continue (mkSubscribeState (subscriptions st2) (sent st2)
                  (S (slept st2)) (logged st2 ++ [e]))
  | None => Continue st2
  end.

(** [SubscribeToPayloadAttributesEvents], watched for [rounds] rounds of its
    loop: [Continue] when the loop is still running after them. *)
Fixpoint SubscribeToPayloadAttributesEvents (src : EventSource)
  (opbc : OpBeaconClient) (rounds : nat) (st : SubscribeState)
  : round SubscribeState :=
  match rounds with
  | O => Continue st
  | S n =>
      match subscribeRound src opbc st with
      | Continue st' => SubscribeToPayloadAttributesEvents src opbc n st'
      | Return st' => Return st'
      end
  end.

End Beacon.

(** ** suave: the API *)

Section API.
Context `{Externals}.

(** [*eth.Ethereum], as far as the API uses it: the block lookup of
    [BlockChain()] and the two build operations of [APIBackend].  The
    [context.Context] of a build request is handed on untouched and is left
    out. *)
Record Ethereum : Type := mkEthereum {
  GetBlockByHash : Hash -> option Block;
  BuildBlockFromTxs :
    BuildBlockArgs.t -> list Transaction -> result (Block * Z);
  BuildBlockFromBundles :
    BuildBlockArgs.t -> list SBundleFromSuave.t -> result (Block * Z)
}.

(** A call of a build operation of the backend, with its arguments. *)
Inductive BackendCall : Type :=
| CallBuildBlockFromTxs (args : BuildBlockArgs.t) (txs : list Transaction)
| CallBuildBlockFromBundles (args : BuildBlockArgs.t)
    (bundles : list SBundleFromSuave.t).

(** [SuaveAPI].  The mutex and the [stop] channel carry no data; the closing
    of [stop] is an input of the dispatch loop. *)
Record SuaveAPI : Type := mkSuaveAPI {
  b : Ethereum;
  beaconClient : OpBeaconClient;
  slotAttrs : BuilderPayloadAttributes.t
}.

Definition NewSuaveAPI (b : Ethereum) (config : Config.t) : SuaveAPI :=
  let client := NewOpBeaconClient (Config.BeaconEndpoint config) in
  mkSuaveAPI b client BuilderPayloadAttributes.zero.

(** [SuaveAPI.OnPayloadAttribute]: the error returned and the API after the
    call. *)
Definition OnPayloadAttribute (api : SuaveAPI)
  (attrs : BuilderPayloadAttributes.t) : option error * SuaveAPI :=
  let parentBlock :=
    GetBlockByHash (b api) (BuilderPayloadAttributes.HeadHash attrs) in
  match parentBlock with
  | None =>
      (Some (ErrParentNotFound (BuilderPayloadAttributes.HeadHash attrs)), api)
  | Some _ =>
      (None, mkSuaveAPI (b api) (beaconClient api) attrs)
  end.

(** [SuaveAPI.getCurrentDepositTxs] *)
Definition getCurrentDepositTxs (api : SuaveAPI) : result (list Transaction) :=
  Ok (BuilderPayloadAttributes.Transactions (slotAttrs api)).

(** The [BuildBlockArgs] literal that both build operations start with. *)
Definition overrideBuildArgs (api : SuaveAPI)
  (buildArgs : option BuildBlockArgs.t) : outcome BuildBlockArgs.t :=
  let attrs := slotAttrs api in
  match deref (BuilderPayloadAttributes.ParentBeaconBlockRoot attrs) with
  | Returned beaconRoot =>
      match deref buildArgs with
      | Returned caller =>
          Returned
            (BuildBlockArgs.mk
               (BuilderPayloadAttributes.Slot attrs)
               (BuilderPayloadAttributes.HeadHash attrs)
               (BuilderPayloadAttributes.Timestamp attrs)
               (BuilderPayloadAttributes.SuggestedFeeRecipient attrs)
               (BuilderPayloadAttributes.GasLimit attrs)
               (BuilderPayloadAttributes.Random attrs)
               (BuilderPayloadAttributes.Withdrawals attrs)
               beaconRoot
               (BuildBlockArgs.FillPending caller)
               (BuilderPayloadAttributes.Transactions attrs))
      | Failed e => Failed e
      | Panicked p => Panicked p
      end
  | Failed e => Failed e
  | Panicked p => Panicked p
  end.

(** The arguments that reach the backend: everything from the stored
    record, the flag [FillPending] from the caller. *)
Definition finalBuildArgs (attrs : BuilderPayloadAttributes.t)
  (beaconRoot : Hash) (fillPending : bool) : BuildBlockArgs.t :=
  BuildBlockArgs.mk
    (BuilderPayloadAttributes.Slot attrs)
    (BuilderPayloadAttributes.HeadHash attrs)
    (BuilderPayloadAttributes.Timestamp attrs)
    (BuilderPayloadAttributes.SuggestedFeeRecipient attrs)
    (BuilderPayloadAttributes.GasLimit attrs)
    (BuilderPayloadAttributes.Random attrs)
    (BuilderPayloadAttributes.Withdrawals attrs)
    beaconRoot
    fillPending
    (BuilderPayloadAttributes.Transactions attrs).

(** [SuaveAPI.BuildEthBlock] *)
Definition BuildEthBlock (api : SuaveAPI) (buildArgs : option BuildBlockArgs.t)
  (txs : list Transaction) : Exec BackendCall ExecutionPayloadEnvelope :=
  args <- local (overrideBuildArgs api buildArgs) ;;
  built <- external (CallBuildBlockFromTxs args txs)
             (BuildBlockFromTxs (b api) args txs) ;;
  ret (BlockToExecutableData (fst built) (snd built)).

(** [SuaveAPI.BuildEthBlockFromBundles] *)
Definition BuildEthBlockFromBundles (api : SuaveAPI)
  (buildArgs : option BuildBlockArgs.t) (bundles : list SBundleFromSuave.t)
  : Exec BackendCall ExecutionPayloadEnvelope :=
  args <- local (overrideBuildArgs api buildArgs) ;;
  built <- external (CallBuildBlockFromBundles args bundles)
             (BuildBlockFromBundles (b api) args bundles) ;;
  ret (BlockToExecutableData (fst built) (snd built)).

(** *** The dispatch loop of [Start] *)

(** What the [select] of the loop took: the closing of [api.stop], or a
    record from the channel. *)
Inductive SelectCase : Type :=
| StopClosed
| Received (payloadAttributes : BuilderPayloadAttributes.t).

(** One call of [log.Error] in the loop. *)
Record DispatchError : Type := mkDispatchError {
  latestSlot : N;
  processedSlot : N;
  headHash : Hash;
  cause : error
}.

(** The goroutine of [Start]: its local [currentSlot], the API it drives and
    the errors it has logged. *)
Record DispatchState : Type := mkDispatchState {
  currentSlot : N;
  api : SuaveAPI;
  errorLog : list DispatchError
}.

(** The body of the [for] loop of [Start]. *)
Definition dispatchRound (st : DispatchState) (c : SelectCase)
  : round DispatchState :=
  match c with
  | StopClosed => Return st
  | Received payloadAttributes =>
      let slot := BuilderPayloadAttributes.Slot payloadAttributes in
      if (slot <=? currentSlot st)%N then Continue st
      else if (currentSlot st <? slot)%N then
        let currentSlot' := slot in
        let '(err, api') := OnPayloadAttribute (api st) payloadAttributes in
        match err with
        | Some e =>
            Continue
              (mkDispatchState currentSlot' api'
                 (errorLog st
                  ++ [mkDispatchError currentSlot' slot
                        (BuilderPayloadAttributes.HeadHash payloadAttributes)
                        e]))
        | None => Continue (mkDispatchState currentSlot' api' (errorLog st))
        end
      else Continue st
  end.

(** The loop, over what its [select] takes in turn. *)
Fixpoint dispatchLoop (st : DispatchState) (cases : list SelectCase)
  : round DispatchState :=
  match cases with
  | [] => Continue st
  | c :: rest =>
      match dispatchRound st c with
      | Continue st' => dispatchLoop st' rest
      | Return st' => Return st'
      end
  end.

(** The goroutine of [Start] as it begins: [currentSlot := uint64(0)]. *)
Definition Start (api : SuaveAPI) : DispatchState :=
  mkDispatchState 0 api [].

(** The node behind [api.b] moves on between two rounds of the loop: blocks
    are imported, the lookup answers change. *)
Definition withBackend (b' : Ethereum) (st : DispatchState) : DispatchState :=
  mkDispatchState (currentSlot st)
    (mkSuaveAPI b' (beaconClient (api st)) (slotAttrs (api st)))
    (errorLog st).

(** The states the loop can be in after [st]: any number of rounds, the
    backend changing freely in between. *)
Inductive reaches (st : DispatchState) : DispatchState -> Prop :=
| reaches_here : reaches st st
| reaches_round st1 st2 c :
    reaches st st1 -> dispatchRound st1 c = Continue st2 -> reaches st st2
| reaches_backend st1 b' :
    reaches st st1 -> reaches st (withBackend b' st1).

End API.

(** ** Further methods of the same files *)

Section BundleMethods.
Context `{Externals}.

(** [SBundle.Txs]: one entry for every body element, nil for an element
    that holds no transaction. *)
Definition SBundle_Txs (b : SBundle) : list (option Transaction) :=
  map Tx (Body b).

(** [SBundle.RefundPercent]: the percent of the first entry of the refund
    configuration, nil when there is none. *)
Definition SBundle_RefundPercent (b : SBundle) : option Z :=
  if length (BundleValidity.RefundConfig (Validity b)) =? 0
  then None
  else
    Some (RefundConfig.Percent
            (nth 0 (BundleValidity.RefundConfig (Validity b))
               (RefundConfig.mk zeroAddress 0))).

(** What decides the hash of a body element: its two references. *)
Definition bodyContent (e : BundleBody) : option Transaction * option SBundle :=
  (Tx e, Bundle e).

End BundleMethods.

Section LoopHelpers.
Context `{Externals}.

(** The records among the events of one subscription that parse, in the
    order of the events. *)
Fixpoint parsedEvents (src : EventSource) (events : list Bytes)
  : list BuilderPayloadAttributes.t :=
  match events with
  | [] => []
  | data :: rest =>
      match UnmarshalAttributes src data with
      | Ok attrs => attrs :: parsedEvents src rest
      | Err _ => parsedEvents src rest
      end
  end.

(** The errors of the events that do not parse, in the order of the
    events. *)
Fixpoint parseErrors (src : EventSource) (events : list Bytes) : list error :=
  match events with
  | [] => []
  | data :: rest =>
      match UnmarshalAttributes src data with
      | Ok _ => parseErrors src rest
      | Err err => err :: parseErrors src rest
      end
  end.

(** Call number [n] of [SubscribeWithContext] by the loop of [opbc]. *)
Definition subscription (src : EventSource) (opbc : OpBeaconClient) (n : nat)
  : list Bytes * option error :=
  SubscribeWithContext src (endpoint opbc ++ "/events")%string
    (cancelled opbc) n.

(** What call number [n] leaves in the log: the parse errors of its events,
    then its own error. *)
Definition subscriptionErrors (src : EventSource) (opbc : OpBeaconClient)
  (n : nat) : list error :=
  parseErrors src (fst (subscription src opbc n))
  ++ match snd (subscription src opbc n) with
     | Some e => [e]
     | None => []
     end.

Definition subscriptionFailed (src : EventSource) (opbc : OpBeaconClient)
  (n : nat) : bool :=
  match snd (subscription src opbc n) with
  | Some _ => true
  | None => false
  end.

(** The highest slot among [currentSlot] and the records received. *)
Definition highestSlot (cur : N) (cases : list SelectCase) : N :=
  fold_left
    (fun m c =>
       match c with
       | StopClosed => m
       | Received pa => N.max m (BuilderPayloadAttributes.Slot pa)
       end)
    cases cur.

(** An entry of the error log for an unknown parent block, written when
    [currentSlot] is the slot of the record. *)
Definition parentNotFoundEntry (d : DispatchError) : Prop :=
  latestSlot d = processedSlot d
  /\ cause d = ErrParentNotFound (headHash d).

(** No closing of [api.stop] among what the loop takes. *)
Definition noStop (cases : list SelectCase) : Prop :=
  Forall (fun c => c <> StopClosed) cases.

End LoopHelpers.

(** ** A small instance to run the code on

    Transactions are their own binary form, blocks are numbers, and the
    digest is a stand-in (the last 32 bytes of the input, reversed): enough to evaluate every
    definition above on concrete values. *)

Module Sample.

Definition externals : Externals := {|
  Transaction := Bytes;
  Withdrawal := N;
  Block := N;
  ExecutionPayloadEnvelope := N * Z;
  TxHash := BytesToHash;
  MarshalBinary := fun tx => Ok tx;
  UnmarshalBinary := fun bs => Ok bs;
  keccak256 := fun bs => BytesToHash (rev bs);
  BlockToExecutableData := fun block profit => (block, profit)
|}.

Definition tx1 : @Transaction externals := [x01; x02].
Definition tx2 : @Transaction externals := [x03].

Definition block1 : @Block externals := 1%N.
Definition withdrawal7 : @Withdrawal externals := 7%N.

Definition hashA : Hash := repeat x0a HashLength.
Definition hashB : Hash := repeat x0b HashLength.
Definition addrF : Address := repeat x0f 20.
Definition addrG : Address := repeat x10 20.

(** A signer that answers [addrF] for every transaction. *)
Definition signer : @Signer externals := {| Sender := fun _ => Ok addrF |}.

Definition noInclusion : BundleInclusion.t := BundleInclusion.mk 0 0.
Definition noValidity : BundleValidity.t := BundleValidity.mk [] [].

(** A body element with neither a transaction nor a bundle. *)
Definition emptyBody : @BundleBody externals := mkBundleBody None None false.

Definition txBody (tx : @Transaction externals) : @BundleBody externals :=
  mkBundleBody (Some tx) None false.

Definition bundleOf (body : list (@BundleBody externals))
  : @SBundle externals :=
  mkSBundle noInclusion body noValidity None.

(** A bundle of one transaction; a bundle of a nested bundle and a
    transaction; an empty bundle that carries a refund configuration. *)
Definition oneTx : @SBundle externals := bundleOf [txBody tx1].

Definition twoElements : @SBundle externals :=
  bundleOf [mkBundleBody None (Some oneTx) true; txBody tx2].

Definition configured : @SBundle externals :=
  mkSBundle noInclusion [] (BundleValidity.mk [] [RefundConfig.mk addrG 90])
    None.

(** A node that knows the block with hash [hashA] only, and whose build
    operations answer block 1 with profit 0. *)
Definition node : @Ethereum externals := {|
  GetBlockByHash := fun h =>
    if list_eq_dec Byte.byte_eq_dec h hashA then Some block1 else None;
  BuildBlockFromTxs := fun _ _ => Ok (block1, 0%Z);
  BuildBlockFromBundles := fun _ _ => Ok (block1, 0%Z)
|}.

Definition attrsAt (slot : N) (head : Hash)
  : @BuilderPayloadAttributes.t externals :=
  BuilderPayloadAttributes.mk 1700 hashB addrF slot head [] (Some hashB)
    [] 30000000.

Definition apiAt (slot : N) : @SuaveAPI externals :=
  mkSuaveAPI node (NewOpBeaconClient DefaultConfig.(Config.BeaconEndpoint))
    (attrsAt slot hashA).

(** The goroutine of [Start] on a fresh API. *)
Definition started : @DispatchState externals :=
  Start (NewSuaveAPI node DefaultConfig).

Definition callerArgs : @BuildBlockArgs.t externals :=
  BuildBlockArgs.mk 99 hashB 1 addrG 1 hashA [withdrawal7] hashA true [tx2].

(** An event source on which every subscription fails at once. *)
Definition deadSource : @EventSource externals := {|
  SubscribeWithContext := fun _ _ _ => ([], Some (ErrExternal "context canceled"));
  UnmarshalAttributes := fun _ => Err (ErrExternal "unexpected end of JSON input")
|}.

Definition wireBundle : @SBundleFromSuave.t externals :=
  SBundleFromSuave.mk (Some 5%Z) (Some 7%Z) [tx1; tx2] [hashA] (Some 10%Z).

(** A second instance, in which the empty byte string is not a
    transaction: it neither encodes nor decodes. *)
Definition strict : Externals := {|
  Transaction := Bytes;
  Withdrawal := N;
  Block := N;
  ExecutionPayloadEnvelope := N * Z;
  TxHash := BytesToHash;
  MarshalBinary := fun tx =>
    match tx with
    | [] => Err (ErrExternal "empty typed transaction bytes")
    | _ :: _ => Ok tx
    end;
  UnmarshalBinary := fun bs =>
    match bs with
    | [] => Err (ErrExternal "empty typed transaction bytes")
    | _ :: _ => Ok bs
    end;
  keccak256 := fun bs => BytesToHash (rev bs);
  BlockToExecutableData := fun block profit => (block, profit)
|}.

(** A bundle whose second transaction does not encode. *)
Definition goodTx : @Transaction strict := [x01].
Definition emptyTx : @Transaction strict := [].

Definition brokenBundle : @SBundleFromSuave.t strict :=
  SBundleFromSuave.mk None None [goodTx; emptyTx; goodTx] [] None.

(** A bundle with no [MaxBlock]. *)
Definition openBundle : @SBundleFromSuave.t externals :=
  SBundleFromSuave.mk (Some 5%Z) None [tx1; tx2] [hashA] (Some 10%Z).


(** A signer that rejects every transaction. *)
Definition rejectingSigner : @Signer externals :=
  {| Sender := fun _ => Err (ErrExternal "invalid signature") |}.

(** Two bundles with the same transactions and different flags, window and
    refund configuration. *)
Definition plainPair : @SBundle externals :=
  bundleOf [txBody tx1; txBody tx2].

Definition flaggedPair : @SBundle externals :=
  mkSBundle (BundleInclusion.mk 10 20)
    [mkBundleBody (Some tx1) None true; mkBundleBody (Some tx2) None true]
    (BundleValidity.mk [RefundConstraint.mk 0 50] [RefundConfig.mk addrG 90])
    None.

(** A record whose beacon root is nil. *)
Definition attrsWithoutRoot : @BuilderPayloadAttributes.t externals :=
  BuilderPayloadAttributes.mk 1700 hashB addrF 8 hashA [] None [tx1] 30000000.

(** Slot 5 with a known parent, slot 7 with an unknown parent, then slot 6
    with a known parent. *)
Definition delivery : list (@SelectCase externals) :=
  [Received (attrsAt 5 hashA); Received (attrsAt 7 hashB);
   Received (attrsAt 6 hashA)].

(** An event source whose subscriptions end at once without error. *)
Definition quietSource : @EventSource externals := {|
  SubscribeWithContext := fun _ _ _ => ([], None);
  UnmarshalAttributes := fun _ => Err (ErrExternal "unexpected end of JSON input")
|}.

(** An event source that fails three times, then hands over three events,
    of which the second does not parse. *)
Definition flakySource : @EventSource externals := {|
  SubscribeWithContext := fun _ _ n =>
    if n <? 3 then ([], Some (ErrExternal "connection refused"))
    else ([[x05]; []; [x06]], None);
  UnmarshalAttributes := fun data =>
    match data with
    | [x05] => Ok (attrsAt 5 hashA)
    | [x06] => Ok (attrsAt 6 hashA)
    | _ => Err (ErrExternal "unexpected end of JSON input")
    end
|}.

Definition localClient : OpBeaconClient :=
  NewOpBeaconClient "http://localhost:8546".

End Sample.

(** * Properties *)

(** ** Bundle hashing *)

Section HashProperties.
Context `{Externals}.

Lemma fold_hasher_Write (hs : list Hash) (written : Bytes) :
  fold_left hasher_Write hs written = written ++ concat hs.
Proof.
  revert written.
  induction hs as [|h hs IH]; intros written; simpl.
  - now rewrite app_nil_r.
  - rewrite IH. unfold hasher_Write. now rewrite app_assoc.
Qed.

(** [BytesToHash] leaves 32 bytes as they are. *)
Lemma BytesToHash_id (bs : Bytes) :
  length bs = HashLength -> BytesToHash bs = bs.
Proof.
  intros Hlen. unfold BytesToHash. rewrite Hlen, Nat.ltb_irrefl, Nat.sub_diag.
  reflexivity.
Qed.

Lemma combineBodyHashes_one (h : Hash) : combineBodyHashes [h] = h.
Proof. reflexivity. Qed.

Lemma combineBodyHashes_digest (hs : list Hash) :
  length hs <> 1 ->
  combineBodyHashes hs = BytesToHash (keccak256 (concat hs)).
Proof.
  intros Hlen. unfold combineBodyHashes.
  destruct (Nat.eqb_spec (length hs) 1) as [E|_]; [contradiction|].
  unfold hasher_Sum. now rewrite fold_hasher_Write.
Qed.

(** A bundle whose cache is filled answers from the cache. *)
Lemma SBundle_Hash_cached (b : SBundle) (h : Hash) :
  hash b = Some h -> SBundle_Hash b = (h, b).
Proof. destruct b as [incl body val cache]; simpl; intros ->; reflexivity. Qed.

(** A bundle whose cache is empty hashes its body and fills the cache. *)
Lemma SBundle_Hash_fresh (b : SBundle) :
  hash b = None ->
  SBundle_Hash b =
    (combineBodyHashes (map bodyHash (Body b)),
     mkSBundle (Inclusion b) (map (fun e => snd (hashBody e)) (Body b))
       (Validity b) (Some (combineBodyHashes (map bodyHash (Body b))))).
Proof.
  destruct b as [incl body val cache]; simpl; intros ->.
  rewrite !map_map. reflexivity.
Qed.

Lemma hashBody_tx (tx : Transaction) (nested : option SBundle) (r : bool) :
  hashBody (mkBundleBody (Some tx) nested r)
  = (TxHash tx, mkBundleBody (Some tx) nested r).
Proof. reflexivity. Qed.

Lemma hashBody_bundle (nested : SBundle) (r : bool) :
  hashBody (mkBundleBody None (Some nested) r)
  = (fst (SBundle_Hash nested),
     mkBundleBody None (Some (snd (SBundle_Hash nested))) r).
Proof. simpl. now destruct (SBundle_Hash nested). Qed.

Lemma hashBody_neither (r : bool) :
  hashBody (mkBundleBody None None r) = (zeroHash, mkBundleBody None None r).
Proof. reflexivity. Qed.

(** After [Hash] the cache holds the value returned. *)
Lemma SBundle_Hash_fills_cache (b : SBundle) :
  hash (snd (SBundle_Hash b)) = Some (fst (SBundle_Hash b)).
Proof.
  destruct (hash b) as [h|] eqn:E.
  - now rewrite (SBundle_Hash_cached b E).
  - now rewrite (SBundle_Hash_fresh b E).
Qed.

(** A second call on the same bundle returns the value of the first. *)
Lemma SBundle_Hash_again (b : SBundle) :
  SBundle_Hash (snd (SBundle_Hash b))
  = (fst (SBundle_Hash b), snd (SBundle_Hash b)).
Proof. apply SBundle_Hash_cached, SBundle_Hash_fills_cache. Qed.

(** The same for one body element: hashing it leaves its hash as it was. *)
Lemma bodyHash_again (e : BundleBody) :
  bodyHash (snd (hashBody e)) = bodyHash e.
Proof.
  unfold bodyHash.
  destruct e as [[tx|] [nested|] r]; try reflexivity.
  rewrite hashBody_bundle. cbn [snd fst].
  rewrite hashBody_bundle. cbn [fst].
  now rewrite SBundle_Hash_again.
Qed.

(** A bundle as constructed has a sound cache, and [Hash] keeps it sound. *)
Lemma CacheSound_clearCache (b : SBundle) : CacheSound (clearCache b).
Proof. now left. Qed.

Lemma SBundle_Hash_keeps_CacheSound (b : SBundle) :
  CacheSound b -> CacheSound (snd (SBundle_Hash b)).
Proof.
  intros [E|E].
  - right. rewrite (SBundle_Hash_fresh b E). cbn [snd hash].
    rewrite SBundle_Hash_fresh by reflexivity. cbn [fst clearCache Body].
    rewrite map_map.
    f_equal. f_equal. apply map_ext. intros e. symmetry. apply bodyHash_again.
  - rewrite (SBundle_Hash_cached b E). cbn [snd]. now right.
Qed.

(** Under a sound cache [Hash] returns what it computes from the body. *)
Lemma SBundle_Hash_CacheSound (b : SBundle) :
  CacheSound b ->
  fst (SBundle_Hash b) = combineBodyHashes (map bodyHash (Body b)).
Proof.
  intros [E|E].
  - now rewrite (SBundle_Hash_fresh b E).
  - rewrite (SBundle_Hash_cached b E). cbn [fst].
    rewrite SBundle_Hash_fresh by reflexivity. reflexivity.
Qed.

(** C5: the hash of a bundle with exactly one body element is that element's
    own hash, the hash of the transaction when the element is a transaction
    and the hash of the nested bundle when it is a bundle; the hash of a
    bundle with two or more elements is the Keccak-256 digest of the
    elements' hashes concatenated in body order ([BytesToHash] leaves a
    digest of 32 bytes as it is); and a second computation on the same bundle
    returns the value of the first.  The bundle is one whose cache is sound:
    as constructed, or hashed before. *)
Theorem SBundle_Hash_spec (b : SBundle) :
  CacheSound b ->
  (forall e, Body b = [e] -> fst (SBundle_Hash b) = bodyHash e)
  /\ (forall tx nested r,
        Body b = [mkBundleBody (Some tx) nested r] ->
        fst (SBundle_Hash b) = TxHash tx)
  /\ (forall nested r,
        Body b = [mkBundleBody None (Some nested) r] ->
        fst (SBundle_Hash b) = fst (SBundle_Hash nested))
  /\ (2 <= length (Body b) ->
      let digest := keccak256 (concat (map bodyHash (Body b))) in
      fst (SBundle_Hash b) = BytesToHash digest
      /\ (length digest = HashLength -> fst (SBundle_Hash b) = digest))
  /\ fst (SBundle_Hash (snd (SBundle_Hash b))) = fst (SBundle_Hash b).
Proof.
  intros Hsound.
  pose proof (SBundle_Hash_CacheSound Hsound) as Hh.
  repeat split.
  - intros e Hb. rewrite Hh, Hb. reflexivity.
  - intros tx nested r Hb. rewrite Hh, Hb. reflexivity.
  - intros nested r Hb. rewrite Hh, Hb. cbn [map].
    rewrite combineBodyHashes_one. unfold bodyHash.
    now rewrite hashBody_bundle.
  - rewrite Hh. apply combineBodyHashes_digest. rewrite length_map. lia.
  - intros Hdigest. rewrite Hh, combineBodyHashes_digest.
    + now apply BytesToHash_id.
    + rewrite length_map. lia.
  - now rewrite SBundle_Hash_again.
Qed.

End HashProperties.

(** ** Refund resolution and the two cases of a body element *)

Section RefundProperties.
Context `{Externals}.

(** [GetRefundConfig] on a body whose nested bundle is [nested], unfolded
    once. *)
Lemma GetRefundConfig_bundle (nested : SBundle) (r : bool) (signer : Signer) :
  GetRefundConfig (mkBundleBody None (Some nested) r) signer =
    if 0 <? length (BundleValidity.RefundConfig (Validity nested))
    then Ok (BundleValidity.RefundConfig (Validity nested))
    else
      match Body nested with
      | [] => Err ErrIncorrectRefundConfig
      | first :: _ => GetRefundConfig first signer
      end.
Proof. destruct nested as [incl body val cache]. reflexivity. Qed.

Lemma GetRefundConfig_tx (tx : Transaction) (nested : option SBundle)
  (r : bool) (signer : Signer) :
  GetRefundConfig (mkBundleBody (Some tx) nested r) signer =
    match Sender signer tx with
    | Err err => Err err
    | Ok address => Ok [RefundConfig.mk address 100]
    end.
Proof. reflexivity. Qed.

(** C6: a body with a transaction whose sender is [A] resolves to
    [[{A, 100}]]; a body with a nested bundle that carries a non-empty
    RefundConfig resolves to that configuration, whatever the body of the
    bundle; with no configuration and a non-empty body it resolves to what
    the first element of the nested body resolves to; with no configuration
    and an empty body it fails with ErrIncorrectRefundConfig. *)
Theorem GetRefundConfig_spec (signer : Signer) (r : bool) :
  (forall tx nested A,
      Sender signer tx = Ok A ->
      GetRefundConfig (mkBundleBody (Some tx) nested r) signer
      = Ok [RefundConfig.mk A 100])
  /\ (forall nested,
        BundleValidity.RefundConfig (Validity nested) <> [] ->
        GetRefundConfig (mkBundleBody None (Some nested) r) signer
        = Ok (BundleValidity.RefundConfig (Validity nested)))
  /\ (forall nested first rest,
        BundleValidity.RefundConfig (Validity nested) = [] ->
        Body nested = first :: rest ->
        GetRefundConfig (mkBundleBody None (Some nested) r) signer
        = GetRefundConfig first signer)
  /\ (forall nested,
        BundleValidity.RefundConfig (Validity nested) = [] ->
        Body nested = [] ->
        GetRefundConfig (mkBundleBody None (Some nested) r) signer
        = Err ErrIncorrectRefundConfig).
Proof.
  repeat split.
  - intros tx nested A HA. rewrite GetRefundConfig_tx, HA. reflexivity.
  - intros nested Hcfg. rewrite GetRefundConfig_bundle.
    destruct (BundleValidity.RefundConfig (Validity nested)) as [|c cs];
      [contradiction|reflexivity].
  - intros nested first rest Hcfg Hbody.
    rewrite GetRefundConfig_bundle, Hcfg, Hbody. reflexivity.
  - intros nested Hcfg Hbody.
    rewrite GetRefundConfig_bundle, Hcfg, Hbody. reflexivity.
Qed.

(** C9, as the code has it: a body element is a pair of nullable references,
    and all four combinations are values of the type.  With neither set,
    [Hash] leaves the zero hash for the element and [GetRefundConfig] fails
    with ErrIncorrectRefundConfig; with a transaction set, the transaction
    decides both, whether a bundle is set as well or not. *)
Theorem BundleBody_cases (signer : Signer) (e : BundleBody) :
  (Tx e = None -> Bundle e = None ->
   bodyHash e = zeroHash
   /\ GetRefundConfig e signer = Err ErrIncorrectRefundConfig)
  /\ (forall tx, Tx e = Some tx ->
      bodyHash e = TxHash tx
      /\ GetRefundConfig e signer =
           match Sender signer tx with
           | Err err => Err err
           | Ok address => Ok [RefundConfig.mk address 100]
           end)
  /\ (exists neither : BundleBody, Tx neither = None /\ Bundle neither = None)
  /\ (forall tx nested, exists both : BundleBody,
        Tx both = Some tx /\ Bundle both = Some nested).
Proof.
  repeat split.
  - destruct e as [tx nested r]; cbn [Tx Bundle] in *; subst; reflexivity.
  - destruct e as [tx nested r]; cbn [Tx Bundle] in *; subst; reflexivity.
  - destruct e as [tx' nested r]; cbn [Tx] in *; subst; reflexivity.
  - destruct e as [tx' nested r]; cbn [Tx] in *; subst; reflexivity.
  - exists (mkBundleBody None None false). now split.
  - intros tx nested. exists (mkBundleBody (Some tx) (Some nested) false).
    now split.
Qed.

End RefundProperties.

(** ** The bundle wire format *)

Section WireProperties.
Context `{Externals}.

Lemma decodeAll_bytes (l : list Bytes) :
  Json.decodeAll Json.decodeBytes (map JData l) = Ok l.
Proof. induction l as [|x l IH]; simpl; [|rewrite IH]; reflexivity. Qed.

Lemma decodeAll_hashes (l : list Hash) :
  Forall (fun h => length h = HashLength) l ->
  Json.decodeAll Json.decodeHash (map JData l) = Ok l.
Proof.
  induction 1 as [|h l Hh _ IH]; simpl; [reflexivity|].
  rewrite Hh, Nat.eqb_refl, IH. reflexivity.
Qed.

Lemma decodeBig_onWire (z : Z) :
  (0 <= z < 2 ^ 256)%Z -> Json.decodeBig (JQuantity z) = Ok z.
Proof.
  intros [Hlo Hhi]. unfold Json.decodeBig.
  apply Z.leb_le in Hlo. apply Z.ltb_lt in Hhi.
  now rewrite Hlo, Hhi.
Qed.

(** The JSON layer alone loses nothing that the wire format can carry. *)
Lemma Json_Unmarshal_Marshal (r : RpcSBundle.t) :
  Json.bigOnWire (RpcSBundle.BlockNumber r) ->
  Json.bigOnWire (RpcSBundle.MaxBlock r) ->
  Forall (fun h => length h = HashLength) (RpcSBundle.RevertingHashes r) ->
  Json.Unmarshal (Json.Marshal r) = Ok r.
Proof.
  destruct r as [bn mb txs hs pc]; cbn [RpcSBundle.BlockNumber
    RpcSBundle.MaxBlock RpcSBundle.RevertingHashes]; intros Hbn Hmb Hhs.
  assert (Hd : Json.decodeAll Json.decodeHash (map JData hs) = Ok hs)
    by now apply decodeAll_hashes.
  pose proof (decodeAll_bytes txs) as Ht.
  destruct bn as [bn|], mb as [mb|], hs as [|h hs], pc as [pc|];
    cbn -[Json.decodeBig Json.decodeAll Z.pow];
    cbn [Json.bigOnWire] in Hbn, Hmb; cbn [map] in Hd;
    rewrite ?(decodeBig_onWire Hbn), ?(decodeBig_onWire Hmb), ?Ht, ?Hd;
    reflexivity.
Qed.

Lemma unmarshalTxs_marshalTxs (txs : list Transaction) :
  (forall tx, In tx txs ->
     exists txBytes,
       MarshalBinary tx = Ok txBytes /\ UnmarshalBinary txBytes = Ok tx) ->
  exists raw, marshalTxs txs = Ok raw /\ unmarshalTxs raw = Ok txs.
Proof.
  induction txs as [|tx txs IH]; intros Hcodec.
  - exists []. now split.
  - destruct (Hcodec tx (or_introl eq_refl)) as (txBytes & Hm & Hu).
    destruct IH as (raw & Hms & Hus).
    { intros tx' Hin. apply Hcodec. now right. }
    exists (txBytes :: raw). simpl. now rewrite Hm, Hms, Hu, Hus.
Qed.

(** Marshalling a bundle and unmarshalling the result gives the bundle back
    in every field but [MaxBlock], which comes back nil. *)
Lemma UnmarshalJSON_MarshalJSON (s : SBundleFromSuave.t) :
  (forall tx, In tx (SBundleFromSuave.Txs s) ->
     exists txBytes,
       MarshalBinary tx = Ok txBytes /\ UnmarshalBinary txBytes = Ok tx) ->
  Json.bigOnWire (SBundleFromSuave.BlockNumber s) ->
  Forall (fun h => length h = HashLength) (SBundleFromSuave.RevertingHashes s) ->
  exists data,
    MarshalJSON s = Ok data
    /\ UnmarshalJSON data =
         Ok (SBundleFromSuave.mk
               (SBundleFromSuave.BlockNumber s)
               None
               (SBundleFromSuave.Txs s)
               (SBundleFromSuave.RevertingHashes s)
               (SBundleFromSuave.RefundPercent s)).
Proof.
  intros Hcodec Hbn Hhs.
  destruct (unmarshalTxs_marshalTxs _ Hcodec) as (raw & Hm & Hu).
  unfold MarshalJSON, UnmarshalJSON. rewrite Hm.
  eexists. split; [reflexivity|].
  rewrite Json_Unmarshal_Marshal; cbn [RpcSBundle.BlockNumber
    RpcSBundle.MaxBlock RpcSBundle.RevertingHashes RpcSBundle.Txs
    RpcSBundle.RefundPercent Json.bigOnWire]; trivial.
  - rewrite Hu. now destruct (SBundleFromSuave.BlockNumber s).
  - now destruct (SBundleFromSuave.BlockNumber s).
Qed.

End WireProperties.

(** C8, on the code: the bundle [Sample.wireBundle] has [MaxBlock] 7;
    marshalled and unmarshalled it comes back with every other field as it
    was and [MaxBlock] nil, so it is not the bundle that went in. *)
Theorem MarshalJSON_drops_MaxBlock :
  exists data,
    MarshalJSON Sample.wireBundle = Ok data
    /\ UnmarshalJSON data =
         Ok (SBundleFromSuave.mk (Some 5%Z) None [Sample.tx1; Sample.tx2]
               [Sample.hashA] (Some 10%Z))
    /\ UnmarshalJSON data <> Ok Sample.wireBundle
    /\ SBundleFromSuave.MaxBlock Sample.wireBundle = Some 7%Z.
Proof.
  eexists. split; [reflexivity|]. split; [reflexivity|].
  split; [|reflexivity]. discriminate.
Qed.

(** ** The store and the dispatch loop *)

Section StoreProperties.
Context `{Externals}.

Local Open Scope N_scope.

Abbreviation slotOf := BuilderPayloadAttributes.Slot.
Abbreviation headOf := BuilderPayloadAttributes.HeadHash.

(** [OnPayloadAttribute] when the parent block is known: the record is
    stored, whatever its slot. *)
Lemma OnPayloadAttribute_known (a : SuaveAPI)
  (attrs : BuilderPayloadAttributes.t) (parent : Block) :
  GetBlockByHash (b a) (headOf attrs) = Some parent ->
  OnPayloadAttribute a attrs
  = (None, mkSuaveAPI (b a) (beaconClient a) attrs).
Proof. unfold OnPayloadAttribute. now intros ->. Qed.

(** C4: when the chain lookup does not find the head hash of the candidate,
    [OnPayloadAttribute] returns the error "could not find parent block" and
    the API, with its stored record, is as it was. *)
Theorem OnPayloadAttribute_unknown_parent (a : SuaveAPI)
  (attrs : BuilderPayloadAttributes.t) :
  GetBlockByHash (b a) (headOf attrs) = None ->
  OnPayloadAttribute a attrs = (Some (ErrParentNotFound (headOf attrs)), a)
  /\ slotAttrs (snd (OnPayloadAttribute a attrs)) = slotAttrs a.
Proof.
  intros Hnone. unfold OnPayloadAttribute. rewrite Hnone. now split.
Qed.

(** [OnPayloadAttribute] never touches anything but the stored record. *)
Lemma OnPayloadAttribute_stores (a : SuaveAPI)
  (attrs : BuilderPayloadAttributes.t) :
  let a' := snd (OnPayloadAttribute a attrs) in
  b a' = b a /\ (slotAttrs a' = slotAttrs a \/ slotAttrs a' = attrs).
Proof.
  unfold OnPayloadAttribute.
  destruct (GetBlockByHash (b a) (headOf attrs)); cbn; auto.
Qed.

(** A record whose slot is not above [currentSlot] is skipped: nothing
    changes and nothing is logged. *)
Lemma dispatchRound_stale (st : DispatchState)
  (pa : BuilderPayloadAttributes.t) :
  slotOf pa <= currentSlot st ->
  dispatchRound st (Received pa) = Continue st.
Proof.
  intros Hle. cbn [dispatchRound].
  apply N.leb_le in Hle. now rewrite Hle.
Qed.

(** A record whose slot is above [currentSlot] moves [currentSlot] to its
    slot, whether the store takes it or not. *)
Lemma dispatchRound_fresh (st : DispatchState)
  (pa : BuilderPayloadAttributes.t) :
  currentSlot st < slotOf pa ->
  exists st',
    dispatchRound st (Received pa) = Continue st'
    /\ currentSlot st' = slotOf pa
    /\ api st' = snd (OnPayloadAttribute (api st) pa).
Proof.
  intros Hlt. cbn [dispatchRound].
  destruct (N.leb_spec (slotOf pa) (currentSlot st)) as [Hle|_]; [lia|].
  apply N.ltb_lt in Hlt. rewrite Hlt.
  destruct (OnPayloadAttribute (api st) pa) as [[e|] a'];
    eexists; split; try reflexivity; now split.
Qed.

Lemma dispatchRound_currentSlot (st st' : DispatchState) (c : SelectCase) :
  dispatchRound st c = Continue st' ->
  currentSlot st <= currentSlot st'.
Proof.
  destruct c as [|pa]; [discriminate|].
  destruct (N.le_gt_cases (slotOf pa) (currentSlot st)) as [Hle|Hgt].
  - rewrite (dispatchRound_stale _ _ Hle). intros [= <-]. lia.
  - destruct (dispatchRound_fresh _ _ Hgt) as (st1 & -> & Hcur & _).
    intros [= <-]. lia.
Qed.

(** [currentSlot] never goes down. *)
Lemma reaches_currentSlot (st st' : DispatchState) :
  reaches st st' -> currentSlot st <= currentSlot st'.
Proof.
  induction 1 as [|st1 st2 c _ IH Hround|st1 b' _ IH].
  - lia.
  - apply dispatchRound_currentSlot in Hround. lia.
  - exact IH.
Qed.

(** The slot of the stored record never gets ahead of [currentSlot]. *)
Lemma reaches_stored_slot (st st' : DispatchState) :
  slotOf (slotAttrs (api st)) <= currentSlot st ->
  reaches st st' ->
  slotOf (slotAttrs (api st')) <= currentSlot st'.
Proof.
  intros Hinit. induction 1 as [|st1 st2 c _ IH Hround|st1 b' _ IH].
  - exact Hinit.
  - destruct c as [|pa]; [discriminate|].
    destruct (N.le_gt_cases (slotOf pa) (currentSlot st1)) as [Hle|Hgt].
    + rewrite (dispatchRound_stale _ _ Hle) in Hround.
      injection Hround as <-. exact IH.
    + destruct (dispatchRound_fresh _ _ Hgt) as (st1' & E & Hcur & Hapi).
      rewrite E in Hround. injection Hround as <-.
      rewrite Hapi, Hcur.
      destruct (OnPayloadAttribute_stores (api st1) pa) as [_ [-> | ->]]; lia.
  - exact IH.
Qed.

(** C2, as the code has it: the check of the slot is in the dispatch loop
    only.  The loop skips every record whose slot is not above its
    [currentSlot], and so every record whose slot is not above the slot of
    the stored record: the stored record stays and nothing is logged.
    [OnPayloadAttribute] itself stores any record whose parent block is
    known, whatever its slot, and returns no error. *)
Theorem stale_slot_check_is_in_dispatch_loop :
  (forall st pa,
      slotOf pa <= currentSlot st ->
      dispatchRound st (Received pa) = Continue st)
  /\ (forall eth config st pa,
        reaches (Start (NewSuaveAPI eth config)) st ->
        slotOf pa <= slotOf (slotAttrs (api st)) ->
        dispatchRound st (Received pa) = Continue st)
  /\ (forall a attrs parent,
        GetBlockByHash (b a) (headOf attrs) = Some parent ->
        OnPayloadAttribute a attrs
        = (None, mkSuaveAPI (b a) (beaconClient a) attrs)).
Proof.
  split; [|split].
  - exact dispatchRound_stale.
  - intros eth config st pa Hreach Hle.
    apply dispatchRound_stale.
    pose proof (reaches_stored_slot (st := Start (NewSuaveAPI eth config))
                  (N.le_refl _) Hreach) as Hinv.
    lia.
  - exact OnPayloadAttribute_known.
Qed.

(** C10: a record whose slot is above [currentSlot] and whose parent block
    is unknown moves [currentSlot] to its slot, is logged and is not stored;
    from then on, whatever the loop receives and however the chain grows,
    a record with that slot is skipped: the state of the loop does not
    change. *)
Theorem failed_slot_is_never_accepted (st : DispatchState)
  (pa : BuilderPayloadAttributes.t) :
  currentSlot st < slotOf pa ->
  GetBlockByHash (b (api st)) (headOf pa) = None ->
  exists st1,
    dispatchRound st (Received pa) = Continue st1
    /\ currentSlot st1 = slotOf pa
    /\ api st1 = api st
    /\ errorLog st1 =
         errorLog st
         ++ [mkDispatchError (slotOf pa) (slotOf pa) (headOf pa)
               (ErrParentNotFound (headOf pa))]
    /\ forall st' pa',
         reaches st1 st' ->
         slotOf pa' = slotOf pa ->
         dispatchRound st' (Received pa') = Continue st'.
Proof.
  intros Hlt Hnone.
  destruct (OnPayloadAttribute_unknown_parent _ _ Hnone) as [Hon _].
  eexists. split.
  - cbn [dispatchRound].
    destruct (N.leb_spec (slotOf pa) (currentSlot st)) as [Hle|_]; [lia|].
    apply N.ltb_lt in Hlt. rewrite Hlt, Hon. reflexivity.
  - cbn [currentSlot api errorLog]. repeat split.
    intros st' pa' Hreach Hslot.
    apply dispatchRound_stale.
    apply reaches_currentSlot in Hreach. cbn [currentSlot] in Hreach. lia.
Qed.

End StoreProperties.

(** ** Build requests *)

Section BuildProperties.
Context `{Externals}.

Lemma overrideBuildArgs_nil_root (a : SuaveAPI)
  (buildArgs : option BuildBlockArgs.t) :
  BuilderPayloadAttributes.ParentBeaconBlockRoot (slotAttrs a) = None ->
  overrideBuildArgs a buildArgs = Panicked NilPointerDereference.
Proof. unfold overrideBuildArgs. now intros ->. Qed.

Lemma overrideBuildArgs_root (a : SuaveAPI) (caller : BuildBlockArgs.t)
  (beaconRoot : Hash) :
  BuilderPayloadAttributes.ParentBeaconBlockRoot (slotAttrs a)
  = Some beaconRoot ->
  overrideBuildArgs a (Some caller)
  = Returned (finalBuildArgs (slotAttrs a) beaconRoot
                (BuildBlockArgs.FillPending caller)).
Proof. unfold overrideBuildArgs. now intros ->. Qed.

(** C1, as the code has it: there is no check for a missing record.  While
    the stored record is the zero value, a build request stops at the nil
    [ParentBeaconBlockRoot] while its arguments are put together: it returns
    neither a payload nor an error, and the backend is not called. *)
Theorem build_before_first_slot (a : SuaveAPI)
  (buildArgs : option BuildBlockArgs.t) :
  slotAttrs a = BuilderPayloadAttributes.zero ->
  (forall txs,
      BuildEthBlock a buildArgs txs = (Panicked NilPointerDereference, []))
  /\ (forall bundles,
        BuildEthBlockFromBundles a buildArgs bundles
        = (Panicked NilPointerDereference, [])).
Proof.
  intros Hzero.
  assert (Hargs : overrideBuildArgs a buildArgs
                  = Panicked NilPointerDereference).
  { apply overrideBuildArgs_nil_root. now rewrite Hzero. }
  split; intros ?; unfold BuildEthBlock, BuildEthBlockFromBundles;
    rewrite Hargs; reflexivity.
Qed.

(** C3: with a stored record whose beacon root is set, the one call that
    reaches the backend carries the slot, parent, timestamp, fee recipient,
    gas limit, randomness, withdrawals and beacon root of the stored record,
    and of the caller's arguments the flag [FillPending] only: two requests
    that agree on the flag make the same call. *)
Theorem build_args_come_from_slot_attributes (a : SuaveAPI)
  (caller : BuildBlockArgs.t) (beaconRoot : Hash) :
  BuilderPayloadAttributes.ParentBeaconBlockRoot (slotAttrs a)
  = Some beaconRoot ->
  let attrs := slotAttrs a in
  let args :=
    BuildBlockArgs.mk
      (BuilderPayloadAttributes.Slot attrs)
      (BuilderPayloadAttributes.HeadHash attrs)
      (BuilderPayloadAttributes.Timestamp attrs)
      (BuilderPayloadAttributes.SuggestedFeeRecipient attrs)
      (BuilderPayloadAttributes.GasLimit attrs)
      (BuilderPayloadAttributes.Random attrs)
      (BuilderPayloadAttributes.Withdrawals attrs)
      beaconRoot
      (BuildBlockArgs.FillPending caller)
      (BuilderPayloadAttributes.Transactions attrs) in
  (forall txs,
      snd (BuildEthBlock a (Some caller) txs)
      = [CallBuildBlockFromTxs args txs])
  /\ (forall bundles,
        snd (BuildEthBlockFromBundles a (Some caller) bundles)
        = [CallBuildBlockFromBundles args bundles])
  /\ (forall other,
        BuildBlockArgs.FillPending other = BuildBlockArgs.FillPending caller ->
        (forall txs,
            BuildEthBlock a (Some other) txs
            = BuildEthBlock a (Some caller) txs)
        /\ (forall bundles,
              BuildEthBlockFromBundles a (Some other) bundles
              = BuildEthBlockFromBundles a (Some caller) bundles)).
Proof.
  intros Hroot attrs args.
  pose proof (overrideBuildArgs_root a caller Hroot) as Hargs.
  fold attrs in Hargs. change (finalBuildArgs _ _ _) with args in Hargs.
  split; [|split].
  - intros txs. unfold BuildEthBlock. rewrite Hargs. cbn [local bind].
    destruct (BuildBlockFromTxs (b a) args txs) as [[blk profit]|e];
      reflexivity.
  - intros bundles. unfold BuildEthBlockFromBundles. rewrite Hargs.
    cbn [local bind].
    destruct (BuildBlockFromBundles (b a) args bundles) as [[blk profit]|e];
      reflexivity.
  - intros other Hflag.
    pose proof (overrideBuildArgs_root a other Hroot) as Hother.
    rewrite Hflag in Hother.
    split; intros ?; unfold BuildEthBlock, BuildEthBlockFromBundles;
      now rewrite Hother, (overrideBuildArgs_root a caller Hroot).
Qed.

End BuildProperties.

(** ** The subscription loop *)

Section SubscribeProperties.
Context `{Externals}.

(** A round of the loop never returns and makes one more subscription. *)
Lemma subscribeRound_continues (src : EventSource) (opbc : OpBeaconClient)
  (st : SubscribeState) :
  exists st',
    subscribeRound src opbc st = Continue st'
    /\ subscriptions st' = S (subscriptions st).
Proof.
  unfold subscribeRound.
  destruct (SubscribeWithContext src _ (cancelled opbc) (subscriptions st))
    as [events err].
  assert (Hfold : forall events st0,
             subscriptions (fold_left (handleEvent src) events st0)
             = subscriptions st0).
  { clear. induction events as [|ev events IH]; intros st0; cbn [fold_left].
    - reflexivity.
    - rewrite IH. unfold handleEvent.
      now destruct (UnmarshalAttributes src ev). }
  destruct err as [e|]; eexists; (split; [reflexivity|]);
    cbn [subscriptions]; now rewrite Hfold.
Qed.

(** The loop never returns: after any number of rounds it is still running
    and has subscribed once per round, whatever the state of the context. *)
Lemma SubscribeToPayloadAttributesEvents_runs (src : EventSource)
  (opbc : OpBeaconClient) (rounds : nat) (st : SubscribeState) :
  exists st',
    SubscribeToPayloadAttributesEvents src opbc rounds st = Continue st'
    /\ subscriptions st' = subscriptions st + rounds.
Proof.
  revert st. induction rounds as [|n IH]; intros st.
  - exists st. split; [reflexivity|]. cbn. lia.
  - destruct (subscribeRound_continues src opbc st) as (st1 & Hround & Hsub).
    destruct (IH st1) as (st' & Hrun & Hsub').
    exists st'. cbn [SubscribeToPayloadAttributesEvents].
    rewrite Hround. split; [exact Hrun|]. lia.
Qed.

(** C7, on the code: once [Stop] has cancelled the context the loop still
    does not return, and every further round subscribes again. *)
Theorem subscription_goes_on_after_Stop (src : EventSource)
  (opbc : OpBeaconClient) (rounds : nat) (st : SubscribeState) :
  cancelled (OpBeaconClient_Stop opbc) = true
  /\ exists st',
       SubscribeToPayloadAttributesEvents src (OpBeaconClient_Stop opbc)
         rounds st = Continue st'
       /\ subscriptions st' = subscriptions st + rounds.
Proof.
  split; [reflexivity|].
  apply SubscribeToPayloadAttributesEvents_runs.
Qed.

End SubscribeProperties.

(** * Further properties of the code *)

(** ** Bundles: what the hash depends on, what hashing changes *)

Section MoreHashProperties.
Context `{Externals}.

Lemma bodyHash_content (e1 e2 : BundleBody) :
  bodyContent e1 = bodyContent e2 -> bodyHash e1 = bodyHash e2.
Proof.
  destruct e1 as [tx1 n1 r1], e2 as [tx2 n2 r2].
  unfold bodyContent; cbn [Tx Bundle]. intros [= -> ->].
  unfold bodyHash. destruct tx2 as [tx|], n2 as [nested|]; try reflexivity.
  now rewrite !hashBody_bundle.
Qed.

Lemma map_bodyHash_content (l1 l2 : list BundleBody) :
  map bodyContent l1 = map bodyContent l2 -> map bodyHash l1 = map bodyHash l2.
Proof.
  revert l2. induction l1 as [|e1 l1 IH]; intros [|e2 l2]; cbn [map];
    try discriminate; [reflexivity|].
  intros [= Htx Hbundle Hrest]. f_equal; [|now apply IH].
  apply bodyHash_content. unfold bodyContent. now rewrite Htx, Hbundle.
Qed.

(** X1: the hash of a bundle does not depend on its inclusion window, its
    validity (refund constraints and configuration) or the [CanRevert] flags
    of its elements: two bundles not hashed before whose elements hold the
    same transactions and nested bundles have the same hash. *)
Theorem SBundle_Hash_depends_on_content_only (b1 b2 : SBundle) :
  hash b1 = None ->
  hash b2 = None ->
  map bodyContent (Body b1) = map bodyContent (Body b2) ->
  fst (SBundle_Hash b1) = fst (SBundle_Hash b2).
Proof.
  intros E1 E2 Hbody.
  rewrite (SBundle_Hash_fresh b1 E1), (SBundle_Hash_fresh b2 E2). cbn [fst].
  now rewrite (map_bodyHash_content _ _ Hbody).
Qed.

Lemma hashBody_keeps (e : BundleBody) :
  Tx (snd (hashBody e)) = Tx e
  /\ CanRevert (snd (hashBody e)) = CanRevert e
  /\ (Bundle e = None -> Bundle (snd (hashBody e)) = None).
Proof.
  destruct e as [[tx|] [nested|] r]; cbn [Tx CanRevert Bundle];
    try (repeat split; reflexivity || discriminate).
  rewrite hashBody_bundle. repeat split. discriminate.
Qed.

(** X2: [Hash] changes caches only.  The bundle after the call has the
    inclusion window, the validity, the transactions of [Txs], the
    [RefundPercent] and the [CanRevert] flags of the bundle before. *)
Theorem SBundle_Hash_changes_caches_only (b : SBundle) :
  Inclusion (snd (SBundle_Hash b)) = Inclusion b
  /\ Validity (snd (SBundle_Hash b)) = Validity b
  /\ SBundle_Txs (snd (SBundle_Hash b)) = SBundle_Txs b
  /\ SBundle_RefundPercent (snd (SBundle_Hash b)) = SBundle_RefundPercent b
  /\ map CanRevert (Body (snd (SBundle_Hash b))) = map CanRevert (Body b).
Proof.
  destruct (hash b) as [h|] eqn:E.
  - rewrite (SBundle_Hash_cached b E). repeat split.
  - rewrite (SBundle_Hash_fresh b E).
    unfold SBundle_Txs, SBundle_RefundPercent.
    cbn [snd Inclusion Validity Body]. rewrite !map_map.
    repeat split; apply map_ext; intros e; apply hashBody_keeps.
Qed.

(** X3: the hash of a flat bundle, one whose elements all hold a
    transaction, is decided by the hashes of the transactions of [Txs]: the
    hash of the transaction when there is one, the digest of the hashes in
    order otherwise. *)
Theorem SBundle_Hash_flat (b : SBundle) (txs : list Transaction) :
  hash b = None ->
  SBundle_Txs b = map Some txs ->
  (forall tx, txs = [tx] -> fst (SBundle_Hash b) = TxHash tx)
  /\ (length txs <> 1 ->
      fst (SBundle_Hash b)
      = BytesToHash (keccak256 (concat (map TxHash txs)))).
Proof.
  intros E Htxs.
  assert (Hh : map bodyHash (Body b) = map TxHash txs).
  { unfold SBundle_Txs in Htxs. revert txs Htxs.
    induction (Body b) as [|e body IH]; intros [|tx txs]; cbn [map];
      try discriminate; [reflexivity|].
    intros [= He Hrest]. f_equal; [|now apply IH].
    destruct e as [tx' nested r]; cbn [Tx] in He; subst tx'. reflexivity. }
  rewrite (SBundle_Hash_fresh b E); cbn [fst]; rewrite Hh. split.
  - intros tx ->. reflexivity.
  - intros Hlen. apply combineBodyHashes_digest. now rewrite length_map.
Qed.

(** X4: a bundle with no body element hashes to the digest of no bytes,
    whatever its inclusion window and validity. *)
Theorem SBundle_Hash_empty_body (b : SBundle) :
  hash b = None ->
  Body b = [] ->
  fst (SBundle_Hash b) = BytesToHash (keccak256 []).
Proof.
  intros E Hbody. rewrite (SBundle_Hash_fresh b E); cbn [fst].
  rewrite Hbody. reflexivity.
Qed.

End MoreHashProperties.

(** ** Refund resolution *)

Section MoreRefundProperties.
Context `{Externals}.

(** Induction along the path that [GetRefundConfig] follows: into the nested
    bundle, then into its first body element. *)
Lemma BundleBody_first_ind (P : BundleBody -> Prop) :
  (forall tx nested r, P (mkBundleBody (Some tx) nested r)) ->
  (forall r, P (mkBundleBody None None r)) ->
  (forall incl val cache r,
      P (mkBundleBody None (Some (mkSBundle incl [] val cache)) r)) ->
  (forall incl first rest val cache r,
      P first ->
      P (mkBundleBody None (Some (mkSBundle incl (first :: rest) val cache)) r)) ->
  forall e, P e.
Proof.
  intros Htx Hnone Hempty Hfirst.
  fix IH 1.
  intros [[tx|] [[incl [|first rest] val cache]|] r].
  - apply Htx.
  - apply Htx.
  - apply Htx.
  - apply Hempty.
  - apply Hfirst. apply IH.
  - apply Hnone.
Qed.

(** X5: a configuration that [GetRefundConfig] returns is never empty. *)
Theorem GetRefundConfig_not_empty (signer : Signer) (e : BundleBody)
  (config : list RefundConfig.t) :
  GetRefundConfig e signer = Ok config -> config <> [].
Proof.
  revert config. induction e as [tx nested r|r|incl val cache r
                                |incl first rest val cache r IH]
    using BundleBody_first_ind; intros config.
  - rewrite GetRefundConfig_tx. destruct (Sender signer tx); intros [= <-];
      discriminate.
  - discriminate.
  - rewrite GetRefundConfig_bundle. cbn [Validity Body].
    destruct (BundleValidity.RefundConfig val) as [|c cs]; cbn.
    + discriminate.
    + intros [= <-]. discriminate.
  - rewrite GetRefundConfig_bundle. cbn [Validity Body].
    destruct (BundleValidity.RefundConfig val) as [|c cs]; cbn.
    + apply IH.
    + intros [= <-]. discriminate.
Qed.

(** X6: an error of [GetRefundConfig] is ErrIncorrectRefundConfig or an
    error that the signer returned for a transaction. *)
Theorem GetRefundConfig_errors (signer : Signer) (e : BundleBody)
  (err : error) :
  GetRefundConfig e signer = Err err ->
  err = ErrIncorrectRefundConfig \/ exists tx, Sender signer tx = Err err.
Proof.
  induction e as [tx nested r|r|incl val cache r
                 |incl first rest val cache r IH]
    using BundleBody_first_ind.
  - rewrite GetRefundConfig_tx.
    destruct (Sender signer tx) as [a|e'] eqn:Hs; [discriminate|].
    intros [= <-]. right. now exists tx.
  - intros [= <-]. now left.
  - rewrite GetRefundConfig_bundle. cbn [Validity Body].
    destruct (0 <? _); [discriminate|]. intros [= <-]. now left.
  - rewrite GetRefundConfig_bundle. cbn [Validity Body].
    destruct (0 <? _); [discriminate|]. exact IH.
Qed.

(** X7: hashing does not change refund resolution: the element that [Hash]
    leaves behind, with its caches filled, resolves as the element did. *)
Theorem GetRefundConfig_after_hashBody (signer : Signer) (e : BundleBody) :
  GetRefundConfig (snd (hashBody e)) signer = GetRefundConfig e signer.
Proof.
  induction e as [tx nested r|r|incl val cache r
                 |incl first rest val cache r IH]
    using BundleBody_first_ind.
  - reflexivity.
  - reflexivity.
  - rewrite hashBody_bundle. cbn [snd].
    destruct cache as [h|]; [reflexivity|].
    rewrite SBundle_Hash_fresh by reflexivity. cbn [snd].
    rewrite !GetRefundConfig_bundle. reflexivity.
  - rewrite hashBody_bundle. cbn [snd].
    destruct cache as [h|]; [reflexivity|].
    rewrite SBundle_Hash_fresh by reflexivity. cbn [snd].
    rewrite !GetRefundConfig_bundle. cbn [Validity Body map].
    destruct (0 <? _); [reflexivity|]. exact IH.
Qed.

(** X8: [RefundPercent] and [GetRefundConfig] agree on a nested bundle:
    when [RefundPercent] is [p], the body that holds the bundle resolves to
    the configuration of the bundle, whose first entry has percent [p]; when
    [RefundPercent] is nil, the bundle has no configuration and resolution
    goes to its body. *)
Theorem RefundPercent_GetRefundConfig (signer : Signer) (nested : SBundle)
  (r : bool) :
  (forall p,
      SBundle_RefundPercent nested = Some p ->
      exists c rest,
        BundleValidity.RefundConfig (Validity nested) = c :: rest
        /\ RefundConfig.Percent c = p
        /\ GetRefundConfig (mkBundleBody None (Some nested) r) signer
           = Ok (c :: rest))
  /\ (SBundle_RefundPercent nested = None ->
      BundleValidity.RefundConfig (Validity nested) = []
      /\ GetRefundConfig (mkBundleBody None (Some nested) r) signer
         = match Body nested with
           | [] => Err ErrIncorrectRefundConfig
           | first :: _ => GetRefundConfig first signer
           end).
Proof.
  unfold SBundle_RefundPercent. rewrite GetRefundConfig_bundle.
  destruct (BundleValidity.RefundConfig (Validity nested)) as [|c cs];
    cbn [length Nat.eqb Nat.ltb Nat.leb nth]; split.
  - discriminate.
  - now split.
  - intros p [= <-]. exists c, cs. now repeat split.
  - discriminate.
Qed.

End MoreRefundProperties.

(** ** The wire format: round trip, errors, shape of the document *)

Section MoreWireProperties.
Context `{Externals}.

(** X9: a bundle without [MaxBlock] survives the wire: when its
    transactions encode and decode back, its block number is one the wire
    can carry and its hashes have 32 bytes, unmarshalling what [MarshalJSON]
    produced gives the bundle itself. *)
Theorem UnmarshalJSON_MarshalJSON_without_MaxBlock (s : SBundleFromSuave.t) :
  SBundleFromSuave.MaxBlock s = None ->
  (forall tx, In tx (SBundleFromSuave.Txs s) ->
     exists txBytes,
       MarshalBinary tx = Ok txBytes /\ UnmarshalBinary txBytes = Ok tx) ->
  Json.bigOnWire (SBundleFromSuave.BlockNumber s) ->
  Forall (fun h => length h = HashLength) (SBundleFromSuave.RevertingHashes s) ->
  exists data, MarshalJSON s = Ok data /\ UnmarshalJSON data = Ok s.
Proof.
  intros Hmax Hcodec Hbn Hhs.
  destruct (UnmarshalJSON_MarshalJSON s Hcodec Hbn Hhs) as (data & Hm & Hu).
  exists data. split; [exact Hm|]. rewrite Hu.
  destruct s as [bn mb txs hs pc]; cbn in Hmax |- *. now subst mb.
Qed.

Lemma marshalTxs_error (txs : list Transaction) (err : error) :
  marshalTxs txs = Err err <->
  exists pre tx post,
    txs = pre ++ tx :: post
    /\ (exists raw, marshalTxs pre = Ok raw)
    /\ MarshalBinary tx = Err err.
Proof.
  induction txs as [|t txs IH]; cbn [marshalTxs].
  - split; [discriminate|]. intros (pre & tx & post & Hnil & _).
    destruct pre; discriminate.
  - destruct (MarshalBinary t) as [bs|e] eqn:Ht.
    + destruct (marshalTxs txs) as [raw|e] eqn:Hrest.
      * split; [discriminate|].
        intros (pre & tx & post & Heq & Hpre & Htx).
        destruct pre as [|p pre]; cbn in Heq; injection Heq as -> ->.
        { congruence. }
        assert (Hbad : Ok raw = Err err :> result (list Bytes)).
        { apply IH. exists pre, tx, post. split; [reflexivity|]. split; [|exact Htx].
          destruct Hpre as (raw' & Hraw'). cbn [marshalTxs] in Hraw'.
          rewrite Ht in Hraw'. destruct (marshalTxs pre) as [r|]; [|discriminate].
          now exists r. }
        discriminate Hbad.
      * split.
        -- intros [= ->]. destruct (proj1 IH eq_refl)
             as (pre & tx & post & -> & (raw & Hraw) & Htx).
           exists (t :: pre), tx, post. split; [reflexivity|]. split; [|exact Htx].
           exists (bs :: raw). cbn [marshalTxs]. now rewrite Ht, Hraw.
        -- intros (pre & tx & post & Heq & Hpre & Htx).
           destruct pre as [|p pre]; cbn in Heq; injection Heq as -> ->.
           { congruence. }
           f_equal. assert (Hgoal : Err e = Err err :> result (list Bytes)).
           { apply IH. exists pre, tx, post. split; [reflexivity|].
             split; [|exact Htx].
             destruct Hpre as (raw' & Hraw'). cbn [marshalTxs] in Hraw'.
             rewrite Ht in Hraw'.
             destruct (marshalTxs pre) as [r|]; [|discriminate]. now exists r. }
           now injection Hgoal.
    + split.
      * intros [= ->]. exists [], t, txs. split; [reflexivity|].
        split; [now exists []|exact Ht].
      * intros (pre & tx & post & Heq & Hpre & Htx).
        destruct pre as [|p pre]; cbn in Heq; injection Heq as -> ->.
        { congruence. }
        destruct Hpre as (raw' & Hraw'). cbn [marshalTxs] in Hraw'.
        rewrite Ht in Hraw'. discriminate.
Qed.

(** X10: [MarshalJSON] fails exactly when a transaction does not encode, with
    the error of the first such transaction; nothing else makes it fail. *)
Theorem MarshalJSON_error (s : SBundleFromSuave.t) (err : error) :
  MarshalJSON s = Err err <->
  exists pre tx post,
    SBundleFromSuave.Txs s = pre ++ tx :: post
    /\ (exists raw, marshalTxs pre = Ok raw)
    /\ MarshalBinary tx = Err err.
Proof.
  rewrite <- marshalTxs_error. unfold MarshalJSON.
  destruct (marshalTxs (SBundleFromSuave.Txs s)); split;
    congruence || discriminate.
Qed.

Lemma marshalTxs_Forall2 (txs : list Transaction) (raw : list Bytes) :
  marshalTxs txs = Ok raw ->
  Forall2 (fun tx txBytes => MarshalBinary tx = Ok txBytes) txs raw.
Proof.
  revert raw. induction txs as [|t txs IH]; cbn [marshalTxs]; intros raw.
  - intros [= <-]. constructor.
  - destruct (MarshalBinary t) as [bs|] eqn:Ht; [|discriminate].
    destruct (marshalTxs txs) as [r|]; [|discriminate].
    intros [= <-]. constructor; [exact Ht|now apply IH].
Qed.

(** X11: the document that [MarshalJSON] produces is an object that always
    has the key "txs", with the binary form of every transaction in order
    (an empty array for no transactions), never has the key "maxBlock", and
    has the key "blockNumber" exactly when the block number is set. *)
Theorem MarshalJSON_document (s : SBundleFromSuave.t) (data : JSON) :
  MarshalJSON s = Ok data ->
  exists fields raw,
    data = JObject fields
    /\ Forall2 (fun tx txBytes => MarshalBinary tx = Ok txBytes)
         (SBundleFromSuave.Txs s) raw
    /\ Json.lookup "txs" fields = Some (JArray (map JData raw))
    /\ Json.lookup "maxBlock" fields = None
    /\ Json.lookup "blockNumber" fields
       = option_map JQuantity (SBundleFromSuave.BlockNumber s).
Proof.
  unfold MarshalJSON.
  destruct (marshalTxs (SBundleFromSuave.Txs s)) as [raw|] eqn:Hraw;
    [|discriminate].
  intros [= <-]. eexists. exists raw. split; [reflexivity|].
  split; [now apply marshalTxs_Forall2|].
  destruct s as [[bn|] mb txs [|h hs] [pc|]]; cbn; repeat split.
Qed.


End MoreWireProperties.

(** ** The dispatch loop as a whole *)

Section MoreDispatchProperties.
Context `{Externals}.

Local Open Scope N_scope.

Abbreviation slotOf := BuilderPayloadAttributes.Slot.
Abbreviation headOf := BuilderPayloadAttributes.HeadHash.

(** One round on a record: where [currentSlot] and the stored record end
    up. *)
Lemma dispatchRound_received (st : DispatchState)
  (pa : BuilderPayloadAttributes.t) :
  exists st',
    dispatchRound st (Received pa) = Continue st'
    /\ currentSlot st' = N.max (currentSlot st) (slotOf pa)
    /\ b (api st') = b (api st)
    /\ (slotAttrs (api st') = slotAttrs (api st)
        \/ (slotAttrs (api st') = pa
            /\ currentSlot st < slotOf pa
            /\ GetBlockByHash (b (api st)) (headOf pa) <> None)).
Proof.
  destruct (N.le_gt_cases (slotOf pa) (currentSlot st)) as [Hle|Hgt].
  - exists st. rewrite (dispatchRound_stale _ _ Hle).
    repeat split; [lia|now left].
  - destruct (dispatchRound_fresh _ _ Hgt) as (st' & Hround & Hcur & Hapi).
    exists st'. split; [exact Hround|]. split; [lia|].
    rewrite Hapi. unfold OnPayloadAttribute.
    destruct (GetBlockByHash (b (api st)) (headOf pa)) as [parent|] eqn:Hp;
      cbn [snd b slotAttrs].
    + split; [reflexivity|]. right.
      split; [reflexivity|]. split; [exact Hgt|]. discriminate.
    + split; [reflexivity|]. now left.
Qed.

(** X13: while [api.stop] stays open the loop goes on, and after any
    records its [currentSlot] is the highest slot it has seen, accepted or
    not. *)
Theorem dispatchLoop_highest_slot (st : DispatchState)
  (cases : list SelectCase) :
  noStop cases ->
  exists st',
    dispatchLoop st cases = Continue st'
    /\ currentSlot st' = highestSlot (currentSlot st) cases.
Proof.
  intros Hno. revert st.
  induction Hno as [|c cases Hc _ IH]; intros st.
  - exists st. now split.
  - destruct c as [|pa]; [contradiction|].
    destruct (dispatchRound_received st pa) as (st1 & Hround & Hcur & _).
    destruct (IH st1) as (st' & Hloop & Hcur').
    exists st'. cbn [dispatchLoop]. rewrite Hround.
    split; [exact Hloop|].
    unfold highestSlot in *. cbn [fold_left]. now rewrite Hcur', Hcur.
Qed.


(** The state in which the loop is, or has returned. *)
Lemma dispatchLoop_store (st st' : DispatchState) (cases : list SelectCase) :
  dispatchLoop st cases = Continue st' \/ dispatchLoop st cases = Return st' ->
  currentSlot st <= currentSlot st'
  /\ b (api st') = b (api st)
  /\ (slotAttrs (api st') = slotAttrs (api st)
      \/ (In (Received (slotAttrs (api st'))) cases
          /\ currentSlot st < slotOf (slotAttrs (api st'))
          /\ GetBlockByHash (b (api st)) (headOf (slotAttrs (api st')))
             <> None)).
Proof.
  revert st. induction cases as [|c cases IH]; intros st; cbn [dispatchLoop].
  - intros [[= <-]|H0]; [|discriminate]. repeat split; [lia|now left].
  - destruct c as [|pa].
    + cbn [dispatchRound]. intros [H0|[= <-]]; [discriminate|].
      repeat split; [lia|now left].
    + destruct (dispatchRound_received st pa)
        as (st1 & Hround & Hcur & Hb & Hstore).
      rewrite Hround. intros Hloop.
      destruct (IH st1 Hloop) as (Hle & Hb' & Hstore').
      split; [lia|]. split; [congruence|].
      destruct Hstore' as [Hsame|(Hin & Hlt & Hknown)].
      * rewrite Hsame.
        destruct Hstore as [Hsame1|(Hpa & Hlt & Hknown)]; [now left|].
        right. rewrite Hpa. repeat split; [now left|exact Hlt|exact Hknown].
      * right. repeat split; [now right|lia|congruence].
Qed.

(** X15: the store only moves forward.  Whatever the loop receives, the
    record stored afterwards is the one stored before, or it is one of the
    records received, its parent block is known to the node, and its slot is
    above the [currentSlot] the loop started with, so above the slot of the
    record it replaced. *)
Theorem dispatchLoop_store_moves_forward (st st' : DispatchState)
  (cases : list SelectCase) :
  slotOf (slotAttrs (api st)) <= currentSlot st ->
  dispatchLoop st cases = Continue st' \/ dispatchLoop st cases = Return st' ->
  slotAttrs (api st') = slotAttrs (api st)
  \/ (In (Received (slotAttrs (api st'))) cases
      /\ slotOf (slotAttrs (api st)) < slotOf (slotAttrs (api st'))
      /\ GetBlockByHash (b (api st)) (headOf (slotAttrs (api st'))) <> None).
Proof.
  intros Hinv Hloop.
  destruct (dispatchLoop_store st cases Hloop)
    as (_ & _ & [Hsame|(Hin & Hlt & Hknown)]); [now left|].
  right. repeat split; [exact Hin|lia|exact Hknown].
Qed.

(** X16: every error that the loop logs is the unknown-parent error for the
    head hash of the record, and its "latestSlot" is the slot of the record
    itself: [currentSlot] was moved before the store was tried. *)
Theorem dispatch_errorLog_entries (st st' : DispatchState) :
  Forall parentNotFoundEntry (errorLog st) ->
  reaches st st' ->
  Forall parentNotFoundEntry (errorLog st').
Proof.
  intros Hinit. induction 1 as [|st1 st2 c _ IH Hround|st1 b' _ IH].
  - exact Hinit.
  - destruct c as [|pa]; [discriminate|].
    cbn [dispatchRound] in Hround.
    destruct (slotOf pa <=? currentSlot st1);
      [injection Hround as <-; exact IH|].
    destruct (currentSlot st1 <? slotOf pa);
      [|injection Hround as <-; exact IH].
    unfold OnPayloadAttribute in Hround.
    destruct (GetBlockByHash (b (api st1)) (headOf pa));
      injection Hround as <-; cbn [errorLog]; [exact IH|].
    apply Forall_app. split; [exact IH|].
    constructor; [|constructor]. now split.
  - exact IH.
Qed.

(** X17: a record that the loop accepts is what the next build request is
    built on: when its slot is above [currentSlot], its parent block is known
    and its beacon root is set, nothing is logged and a build request calls
    the backend with the slot, the parent and the other fields of that
    record. *)
Theorem accepted_record_drives_build (st : DispatchState)
  (pa : BuilderPayloadAttributes.t) (parent : Block) (beaconRoot : Hash) :
  currentSlot st < slotOf pa ->
  GetBlockByHash (b (api st)) (headOf pa) = Some parent ->
  BuilderPayloadAttributes.ParentBeaconBlockRoot pa = Some beaconRoot ->
  exists st',
    dispatchRound st (Received pa) = Continue st'
    /\ errorLog st' = errorLog st
    /\ (forall caller txs,
          snd (BuildEthBlock (api st') (Some caller) txs)
          = [CallBuildBlockFromTxs
               (finalBuildArgs pa beaconRoot (BuildBlockArgs.FillPending caller))
               txs])
    /\ (forall caller bundles,
          snd (BuildEthBlockFromBundles (api st') (Some caller) bundles)
          = [CallBuildBlockFromBundles
               (finalBuildArgs pa beaconRoot (BuildBlockArgs.FillPending caller))
               bundles]).
Proof.
  intros Hlt Hparent Hroot.
  eexists. split.
  - cbn [dispatchRound].
    destruct (N.leb_spec (slotOf pa) (currentSlot st)) as [Hle|_]; [lia|].
    apply N.ltb_lt in Hlt. rewrite Hlt.
    rewrite (OnPayloadAttribute_known _ _ Hparent). reflexivity.
  - cbn [errorLog api]. split; [reflexivity|].
    split; intros caller xs; unfold BuildEthBlock, BuildEthBlockFromBundles;
      rewrite (overrideBuildArgs_root _ caller (beaconRoot := beaconRoot))
        by exact Hroot; cbn [local bind slotAttrs b].
    + destruct (BuildBlockFromTxs _ _ _) as [[blk profit]|e]; reflexivity.
    + destruct (BuildBlockFromBundles _ _ _) as [[blk profit]|e]; reflexivity.
Qed.

(** X18: the store does not look at the beacon root.  A record whose parent
    block is known and whose [ParentBeaconBlockRoot] is nil is stored without
    error, and from then on every build request panics before it reaches the
    backend. *)
Theorem nil_beacon_root_is_stored (a : SuaveAPI)
  (attrs : BuilderPayloadAttributes.t) (parent : Block) :
  GetBlockByHash (b a) (headOf attrs) = Some parent ->
  BuilderPayloadAttributes.ParentBeaconBlockRoot attrs = None ->
  fst (OnPayloadAttribute a attrs) = None
  /\ (forall buildArgs txs,
        BuildEthBlock (snd (OnPayloadAttribute a attrs)) buildArgs txs
        = (Panicked NilPointerDereference, []))
  /\ (forall buildArgs bundles,
        BuildEthBlockFromBundles (snd (OnPayloadAttribute a attrs)) buildArgs
          bundles
        = (Panicked NilPointerDereference, [])).
Proof.
  intros Hparent Hroot. rewrite (OnPayloadAttribute_known _ _ Hparent).
  cbn [fst snd]. split; [reflexivity|].
  split; intros buildArgs xs; unfold BuildEthBlock, BuildEthBlockFromBundles;
    rewrite overrideBuildArgs_nil_root by exact Hroot; reflexivity.
Qed.

(** X19: [getCurrentDepositTxs] never fails; after [OnPayloadAttribute] it
    returns the transactions of the candidate when the parent block of the
    candidate is known, and what it returned before when it is not. *)
Theorem getCurrentDepositTxs_after_OnPayloadAttribute (a : SuaveAPI)
  (attrs : BuilderPayloadAttributes.t) :
  getCurrentDepositTxs (snd (OnPayloadAttribute a attrs))
  = match GetBlockByHash (b a) (headOf attrs) with
    | Some _ => Ok (BuilderPayloadAttributes.Transactions attrs)
    | None => getCurrentDepositTxs a
    end.
Proof.
  unfold OnPayloadAttribute.
  destruct (GetBlockByHash (b a) (headOf attrs)); reflexivity.
Qed.

End MoreDispatchProperties.

(** ** Build requests: outcome and calls *)

Section MoreBuildProperties.
Context `{Externals}.

(** X20: with a stored beacon root, a build request ends as the backend
    does: an error of the backend is returned as it is, and a block with its
    profit is returned as [BlockToExecutableData] of the two; either way the
    backend was called once. *)
Theorem build_outcome_is_backend_outcome (a : SuaveAPI)
  (caller : BuildBlockArgs.t) (beaconRoot : Hash) :
  BuilderPayloadAttributes.ParentBeaconBlockRoot (slotAttrs a)
  = Some beaconRoot ->
  let args :=
    finalBuildArgs (slotAttrs a) beaconRoot (BuildBlockArgs.FillPending caller)
  in
  (forall txs,
      BuildEthBlock a (Some caller) txs
      = (match BuildBlockFromTxs (b a) args txs with
         | Ok (block, profit) => Returned (BlockToExecutableData block profit)
         | Err err => Failed err
         end,
         [CallBuildBlockFromTxs args txs]))
  /\ (forall bundles,
        BuildEthBlockFromBundles a (Some caller) bundles
        = (match BuildBlockFromBundles (b a) args bundles with
           | Ok (block, profit) =>
               Returned (BlockToExecutableData block profit)
           | Err err => Failed err
           end,
           [CallBuildBlockFromBundles args bundles])).
Proof.
  intros Hroot args.
  split; intros xs; unfold BuildEthBlock, BuildEthBlockFromBundles;
    rewrite (overrideBuildArgs_root a caller Hroot); fold args;
    cbn [local bind].
  - destruct (BuildBlockFromTxs (b a) args xs) as [[blk profit]|e];
      reflexivity.
  - destruct (BuildBlockFromBundles (b a) args xs) as [[blk profit]|e];
      reflexivity.
Qed.

(** X21: a build request with nil build arguments panics and does not reach
    the backend, whatever record is stored. *)
Theorem build_with_nil_args (a : SuaveAPI) :
  (forall txs,
      BuildEthBlock a None txs = (Panicked NilPointerDereference, []))
  /\ (forall bundles,
        BuildEthBlockFromBundles a None bundles
        = (Panicked NilPointerDereference, [])).
Proof.
  split; intros xs; unfold BuildEthBlock, BuildEthBlockFromBundles,
    overrideBuildArgs;
    destruct (BuilderPayloadAttributes.ParentBeaconBlockRoot (slotAttrs a));
    reflexivity.
Qed.

(** X22: a build request never returns an error of its own and never calls
    the backend twice: it panics without a call, or it makes exactly one call
    of its own build operation, with the transactions or bundles it was
    given, and ends with a payload or with the error of that call. *)
Theorem build_calls_backend_at_most_once (a : SuaveAPI)
  (buildArgs : option BuildBlockArgs.t) :
  (forall txs,
      BuildEthBlock a buildArgs txs = (Panicked NilPointerDereference, [])
      \/ exists args,
           snd (BuildEthBlock a buildArgs txs)
           = [CallBuildBlockFromTxs args txs]
           /\ match fst (BuildEthBlock a buildArgs txs) with
              | Returned _ => exists built,
                  BuildBlockFromTxs (b a) args txs = Ok built
              | Failed err => BuildBlockFromTxs (b a) args txs = Err err
              | Panicked _ => False
              end)
  /\ (forall bundles,
        BuildEthBlockFromBundles a buildArgs bundles
        = (Panicked NilPointerDereference, [])
        \/ exists args,
             snd (BuildEthBlockFromBundles a buildArgs bundles)
             = [CallBuildBlockFromBundles args bundles]
             /\ match fst (BuildEthBlockFromBundles a buildArgs bundles) with
                | Returned _ => exists built,
                    BuildBlockFromBundles (b a) args bundles = Ok built
                | Failed err =>
                    BuildBlockFromBundles (b a) args bundles = Err err
                | Panicked _ => False
                end).
Proof.
  split; intros xs; unfold BuildEthBlock, BuildEthBlockFromBundles,
    overrideBuildArgs;
    destruct (BuilderPayloadAttributes.ParentBeaconBlockRoot (slotAttrs a))
      as [root|]; [|now left| |now left];
    (destruct buildArgs as [caller|]; [|now left]);
    right; cbn [deref local bind]; eexists.
  - destruct (BuildBlockFromTxs (b a) _ xs) as [[blk profit]|e] eqn:Hb;
      cbn [external bind ret fst snd app]; (split; [reflexivity|]);
      rewrite Hb; [now eexists|reflexivity].
  - destruct (BuildBlockFromBundles (b a) _ xs) as [[blk profit]|e] eqn:Hb;
      cbn [external bind ret fst snd app]; (split; [reflexivity|]);
      rewrite Hb; [now eexists|reflexivity].
Qed.

End MoreBuildProperties.

(** ** The subscription loop: what it delivers, when it waits *)

Section MoreSubscribeProperties.
Context `{Externals}.

Lemma handleEvents_fold (src : EventSource) (events : list Bytes)
  (st : SubscribeState) :
  let st' := fold_left (handleEvent src) events st in
  subscriptions st' = subscriptions st
  /\ sent st' = sent st ++ parsedEvents src events
  /\ slept st' = slept st
  /\ logged st' = logged st ++ parseErrors src events.
Proof.
  revert st. induction events as [|data events IH]; intros st;
    cbn [fold_left parsedEvents parseErrors].
  - now rewrite !app_nil_r.
  - destruct (IH (handleEvent src st data)) as (Hsub & Hsent & Hslept & Hlog).
    cbn zeta. rewrite Hsub, Hsent, Hslept, Hlog. unfold handleEvent.
    destruct (UnmarshalAttributes src data) as [attrs|err];
      cbn [subscriptions sent slept logged];
      rewrite <- ?app_assoc; repeat split.
Qed.

Lemma subscribeRound_effect (src : EventSource) (opbc : OpBeaconClient)
  (st : SubscribeState) :
  exists st',
    subscribeRound src opbc st = Continue st'
    /\ subscriptions st' = S (subscriptions st)
    /\ sent st'
       = sent st ++ parsedEvents src (fst (subscription src opbc (subscriptions st)))
    /\ slept st'
       = slept st
         + (if subscriptionFailed src opbc (subscriptions st) then 1 else 0)
    /\ logged st'
       = logged st ++ subscriptionErrors src opbc (subscriptions st).
Proof.
  unfold subscribeRound, subscriptionErrors, subscriptionFailed, subscription.
  destruct (SubscribeWithContext src _ (cancelled opbc) (subscriptions st))
    as [events err].
  match goal with
  | |- context [fold_left (handleEvent src) events ?s0] =>
      destruct (handleEvents_fold src events s0) as (Hsub & Hsent & Hslept & Hlog)
  end.
  cbn zeta in *. cbn [subscriptions sent slept logged fst snd] in *.
  destruct err as [e|]; eexists; (split; [reflexivity|]);
    cbn [subscriptions sent slept logged];
    rewrite Hsub, Hsent, Hslept, Hlog; repeat split;
    rewrite <- ?app_assoc, ?app_nil_r; try reflexivity; lia.
Qed.

(** X23: what the loop hands on.  After any number of rounds the records
    sent on the channel are, subscription by subscription and event by event
    in order, exactly the events that parse; an event that does not parse is
    logged and dropped, and the subscription goes on with the next event; the
    error of a subscription is logged after the errors of its events. *)
Theorem subscription_loop_delivers (src : EventSource)
  (opbc : OpBeaconClient) (rounds : nat) (st : SubscribeState) :
  exists st',
    SubscribeToPayloadAttributesEvents src opbc rounds st = Continue st'
    /\ sent st'
       = sent st
         ++ flat_map (fun n => parsedEvents src (fst (subscription src opbc n)))
              (seq (subscriptions st) rounds)
    /\ logged st'
       = logged st
         ++ flat_map (subscriptionErrors src opbc)
              (seq (subscriptions st) rounds)
    /\ slept st'
       = slept st
         + length (filter (subscriptionFailed src opbc)
                     (seq (subscriptions st) rounds)).
Proof.
  revert st. induction rounds as [|n IH]; intros st.
  - exists st. cbn. rewrite !app_nil_r. repeat split. lia.
  - destruct (subscribeRound_effect src opbc st)
      as (st1 & Hround & Hsub & Hsent & Hslept & Hlog).
    destruct (IH st1) as (st' & Hrun & Hsent' & Hlog' & Hslept').
    exists st'. cbn [SubscribeToPayloadAttributesEvents]. rewrite Hround.
    split; [exact Hrun|].
    rewrite Hsent', Hlog', Hslept', Hsub, Hsent, Hlog, Hslept.
    cbn [seq flat_map filter]. rewrite <- !app_assoc.
    repeat split.
    destruct (subscriptionFailed src opbc (subscriptions st)); cbn [length]; lia.
Qed.

(** X24: the loop waits only after a failed subscription.  When every
    subscription ends without error, the loop subscribes again at once, round
    after round, without sleeping; when every subscription fails, it sleeps
    one second per round. *)
Theorem subscription_loop_backoff (src : EventSource)
  (opbc : OpBeaconClient) (rounds : nat) (st : SubscribeState) :
  ((forall n, snd (subscription src opbc n) = None) ->
      exists st',
        SubscribeToPayloadAttributesEvents src opbc rounds st = Continue st'
        /\ subscriptions st' = subscriptions st + rounds
        /\ slept st' = slept st)
  /\ ((forall n, snd (subscription src opbc n) <> None) ->
      exists st',
        SubscribeToPayloadAttributesEvents src opbc rounds st = Continue st'
        /\ subscriptions st' = subscriptions st + rounds
        /\ slept st' = slept st + rounds).
Proof.
  assert (Hfilter : forall v,
             (forall n, subscriptionFailed src opbc n = v) ->
             forall start len,
               length (filter (subscriptionFailed src opbc) (seq start len))
               = if v then len else 0).
  { intros v Hv start len. revert start.
    induction len as [|len IH]; intros start; cbn [seq filter].
    - now destruct v.
    - rewrite Hv. destruct v; cbn [length]; now rewrite IH. }
  split.
  - intros Hok.
    destruct (SubscribeToPayloadAttributesEvents_runs src opbc rounds st)
      as (st' & Hrun & Hsub).
    destruct (subscription_loop_delivers src opbc rounds st)
      as (st2 & Hrun2 & _ & _ & Hslept).
    rewrite Hrun in Hrun2. injection Hrun2 as <-.
    exists st'. split; [exact Hrun|]. split; [exact Hsub|].
    rewrite Hslept, (Hfilter false); [lia|].
    intros n. unfold subscriptionFailed. now rewrite Hok.
  - intros Hfail.
    destruct (SubscribeToPayloadAttributesEvents_runs src opbc rounds st)
      as (st' & Hrun & Hsub).
    destruct (subscription_loop_delivers src opbc rounds st)
      as (st2 & Hrun2 & _ & _ & Hslept).
    rewrite Hrun in Hrun2. injection Hrun2 as <-.
    exists st'. split; [exact Hrun|]. split; [exact Hsub|].
    rewrite Hslept, (Hfilter true); [lia|].
    intros n. unfold subscriptionFailed. specialize (Hfail n).
    now destruct (snd (subscription src opbc n)).
Qed.

(** X25: the loop survives failures.  When the first [k] subscriptions fail
    without an event and the next one ends without error, then after [k + 1]
    rounds the loop has slept [k] seconds, has sent the events of that
    subscription that parse, in order, and is still running. *)
Theorem subscription_loop_reconnects (src : EventSource)
  (opbc : OpBeaconClient) (k : nat) (events : list Bytes) :
  (forall n, n < k ->
     fst (subscription src opbc n) = []
     /\ snd (subscription src opbc n) <> None) ->
  subscription src opbc k = (events, None) ->
  exists st',
    SubscribeToPayloadAttributesEvents src opbc (S k) noSubscription
    = Continue st'
    /\ subscriptions st' = S k
    /\ sent st' = parsedEvents src events
    /\ slept st' = k.
Proof.
  intros Hfail Hok.
  destruct (SubscribeToPayloadAttributesEvents_runs src opbc (S k)
              noSubscription) as (st' & Hrun & Hsub).
  destruct (subscription_loop_delivers src opbc (S k) noSubscription)
    as (st2 & Hrun2 & Hsent & _ & Hslept).
  rewrite Hrun in Hrun2. injection Hrun2 as <-.
  exists st'. split; [exact Hrun|]. split; [exact Hsub|].
  cbn [noSubscription subscriptions sent slept app] in Hsent, Hslept.
  rewrite seq_S in Hsent, Hslept. cbn [Nat.add] in Hsent, Hslept.
  rewrite flat_map_app in Hsent. rewrite filter_app, length_app in Hslept.
  cbn [flat_map filter] in Hsent, Hslept.
  unfold subscriptionFailed at 2 in Hslept.
  rewrite Hok in Hsent, Hslept. cbn [fst snd length] in Hsent, Hslept.
  rewrite app_nil_r in Hsent.
  assert (Hbefore : forall m, m <= k ->
             flat_map (fun n => parsedEvents src (fst (subscription src opbc n)))
               (seq 0 m) = []
             /\ length (filter (subscriptionFailed src opbc) (seq 0 m)) = m).
  { induction m as [|m IH]; intros Hm; [now split|].
    destruct IH as [IH1 IH2]; [lia|].
    destruct (Hfail m) as [Hev Herr]; [lia|].
    rewrite seq_S, flat_map_app, filter_app, length_app. cbn [Nat.add].
    cbn [flat_map filter]. rewrite IH1, IH2, Hev. unfold subscriptionFailed.
    destruct (snd (subscription src opbc m)); [|contradiction].
    cbn. split; [reflexivity|lia]. }
  destruct (Hbefore k (Nat.le_refl k)) as [H1 H2].
  rewrite H1 in Hsent. rewrite H2 in Hslept. split; [exact Hsent|lia].
Qed.

End MoreSubscribeProperties.

(** * The properties on the sample instance *)

Section OnSample.
Import Sample.
#[local] Existing Instance externals.

(** C5 on two bundles: one transaction, and a nested bundle followed by a
    transaction. *)
Lemma SBundle_Hash_spec_witness :
  CacheSound oneTx
  /\ fst (SBundle_Hash oneTx) = BytesToHash tx1
  /\ CacheSound twoElements
  /\ fst (SBundle_Hash twoElements)
     = keccak256 (BytesToHash tx1 ++ BytesToHash tx2)
  /\ fst (SBundle_Hash (snd (SBundle_Hash twoElements)))
     = fst (SBundle_Hash twoElements).
Proof.
  assert (S1 : CacheSound oneTx) by (left; reflexivity).
  assert (S2 : CacheSound twoElements) by (left; reflexivity).
  destruct (SBundle_Hash_spec S1) as (_ & Htx & _).
  destruct (SBundle_Hash_spec S2) as (_ & _ & _ & Hdigest & Hagain).
  split; [exact S1|].
  split; [exact (Htx tx1 None false eq_refl)|].
  split; [exact S2|].
  split; [|exact Hagain].
  destruct Hdigest as [_ Hdigest]; [cbn; lia|].
  rewrite Hdigest; reflexivity.
Defined.

(** C6 on the four kinds of body. *)
Lemma GetRefundConfig_spec_witness :
  GetRefundConfig (txBody tx1) signer = Ok [RefundConfig.mk addrF 100]
  /\ GetRefundConfig (mkBundleBody None (Some configured) false) signer
     = Ok [RefundConfig.mk addrG 90]
  /\ GetRefundConfig (mkBundleBody None (Some oneTx) false) signer
     = GetRefundConfig (txBody tx1) signer
  /\ GetRefundConfig (mkBundleBody None (Some (bundleOf [])) false) signer
     = Err ErrIncorrectRefundConfig.
Proof.
  destruct (GetRefundConfig_spec signer false) as (Htx & Hcfg & Hfirst & Hemp).
  split; [exact (Htx tx1 None addrF eq_refl)|].
  split; [apply (Hcfg configured); discriminate|].
  split; [exact (Hfirst oneTx (txBody tx1) [] eq_refl eq_refl)|].
  exact (Hemp (bundleOf []) eq_refl eq_refl).
Defined.

(** C9: a body element with neither case set is a value of the type, so
    not every element has exactly one; [GetRefundConfig] and [Hash] both
    meet it. *)
Lemma BundleBody_with_neither_case :
  ~ ((Tx emptyBody <> None /\ Bundle emptyBody = None)
     \/ (Tx emptyBody = None /\ Bundle emptyBody <> None))
  /\ GetRefundConfig emptyBody signer = Err ErrIncorrectRefundConfig
  /\ fst (SBundle_Hash (bundleOf [emptyBody])) = zeroHash.
Proof.
  split; [|split; reflexivity].
  intros [[Htx _]|[_ Hb]]; [apply Htx|apply Hb]; reflexivity.
Defined.

(** C9 as the code has it, on the element with neither case and on an
    element with both. *)
Lemma BundleBody_cases_witness :
  (bodyHash emptyBody = zeroHash
   /\ GetRefundConfig emptyBody signer = Err ErrIncorrectRefundConfig)
  /\ (bodyHash (mkBundleBody (Some tx1) (Some oneTx) false) = BytesToHash tx1
      /\ GetRefundConfig (mkBundleBody (Some tx1) (Some oneTx) false) signer
         = Ok [RefundConfig.mk addrF 100]).
Proof.
  split.
  - destruct (BundleBody_cases signer emptyBody) as (Hneither & _).
    exact (Hneither eq_refl eq_refl).
  - destruct (BundleBody_cases signer
                (mkBundleBody (Some tx1) (Some oneTx) false))
      as (_ & Htx & _).
    exact (Htx tx1 eq_refl).
Defined.

(** C4 on the sample node, which does not know the block [hashB]. *)
Lemma OnPayloadAttribute_unknown_parent_witness :
  GetBlockByHash node hashB = None
  /\ OnPayloadAttribute (apiAt 5) (attrsAt 6 hashB)
     = (Some (ErrParentNotFound hashB), apiAt 5).
Proof.
  split; [reflexivity|].
  exact (proj1 (OnPayloadAttribute_unknown_parent (apiAt 5) (attrsAt 6 hashB)
                  eq_refl)).
Defined.

(** C2: the store holds the record of slot 5, the candidate has slot 3 and a
    known parent; [OnPayloadAttribute] replaces the stored record. *)
Lemma OnPayloadAttribute_accepts_stale_slot :
  (BuilderPayloadAttributes.Slot (attrsAt 3 hashA)
   <= BuilderPayloadAttributes.Slot (slotAttrs (apiAt 5)))%N
  /\ fst (OnPayloadAttribute (apiAt 5) (attrsAt 3 hashA)) = None
  /\ slotAttrs (snd (OnPayloadAttribute (apiAt 5) (attrsAt 3 hashA)))
     = attrsAt 3 hashA
  /\ slotAttrs (snd (OnPayloadAttribute (apiAt 5) (attrsAt 3 hashA)))
     <> slotAttrs (apiAt 5).
Proof.
  split; [cbn; lia|]. split; [reflexivity|]. split; [reflexivity|].
  cbn. discriminate.
Defined.

(** C2 as the code has it: the loop of a fresh API takes slot 5, then skips
    slot 3; the store alone would have taken it. *)
Lemma stale_slot_check_is_in_dispatch_loop_witness :
  exists st,
    dispatchRound started (Received (attrsAt 5 hashA)) = Continue st
    /\ slotAttrs (api st) = attrsAt 5 hashA
    /\ dispatchRound st (Received (attrsAt 3 hashA)) = Continue st
    /\ OnPayloadAttribute (api st) (attrsAt 3 hashA)
       = (None, mkSuaveAPI (b (api st)) (beaconClient (api st))
                  (attrsAt 3 hashA)).
Proof.
  destruct stale_slot_check_is_in_dispatch_loop
    as (_ & Hstored & Hstore).
  eexists. split; [reflexivity|]. split; [reflexivity|]. split.
  - apply (Hstored node DefaultConfig).
    + apply reaches_round with (st1 := started)
                               (c := Received (attrsAt 5 hashA)).
      * apply reaches_here.
      * reflexivity.
    + cbn. lia.
  - apply (Hstore _ _ block1). reflexivity.
Defined.

(** C10: slot 6 arrives with the unknown parent [hashB]; when slot 6 comes
    again with the known parent [hashA], it is skipped. *)
Lemma failed_slot_is_never_accepted_witness :
  exists st1,
    dispatchRound started (Received (attrsAt 6 hashB)) = Continue st1
    /\ slotAttrs (api st1) = BuilderPayloadAttributes.zero
    /\ dispatchRound st1 (Received (attrsAt 6 hashA)) = Continue st1.
Proof.
  destruct (failed_slot_is_never_accepted started (attrsAt 6 hashB))
    as (st1 & Hround & _ & Hapi & _ & Hlater).
  - cbn. lia.
  - reflexivity.
  - exists st1. split; [exact Hround|]. split.
    + rewrite Hapi. reflexivity.
    + apply Hlater; [apply reaches_here|reflexivity].
Defined.

(** C1: a build request on a fresh API returns no error: it panics. *)
Lemma build_before_first_slot_returns_no_error :
  slotAttrs (NewSuaveAPI node DefaultConfig) = BuilderPayloadAttributes.zero
  /\ ~ (exists e,
          fst (BuildEthBlock (NewSuaveAPI node DefaultConfig)
                 (Some callerArgs) [tx1]) = Failed e)
  /\ ~ (exists e,
          fst (BuildEthBlockFromBundles (NewSuaveAPI node DefaultConfig)
                 (Some callerArgs) [wireBundle]) = Failed e).
Proof.
  split; [reflexivity|].
  split; intros [e He]; cbn in He; discriminate He.
Defined.

(** C1 as the code has it, on a fresh API. *)
Lemma build_before_first_slot_witness :
  BuildEthBlock (NewSuaveAPI node DefaultConfig) (Some callerArgs) [tx1]
  = (Panicked NilPointerDereference, [])
  /\ BuildEthBlockFromBundles (NewSuaveAPI node DefaultConfig)
       (Some callerArgs) [wireBundle]
     = (Panicked NilPointerDereference, []).
Proof.
  destruct (build_before_first_slot (NewSuaveAPI node DefaultConfig)
              (Some callerArgs) eq_refl) as (Htxs & Hbundles).
  split; [apply Htxs|apply Hbundles].
Defined.

(** C3: the caller asks for fee recipient [addrG] and slot 99; the backend
    is called with the fee recipient [addrF] and the slot 5 of the stored
    record, and with the caller's [FillPending]. *)
Lemma build_args_come_from_slot_attributes_witness :
  BuildBlockArgs.FeeRecipient callerArgs = addrG
  /\ snd (BuildEthBlock (apiAt 5) (Some callerArgs) [tx1])
     = [CallBuildBlockFromTxs
          (BuildBlockArgs.mk 5 hashA 1700 addrF 30000000 hashB [] hashB true [])
          [tx1]].
Proof.
  split; [reflexivity|].
  destruct (build_args_come_from_slot_attributes (apiAt 5) callerArgs
              (beaconRoot := hashB) eq_refl) as (Htxs & _).
  exact (Htxs [tx1]).
Defined.

(** Outside [CacheSound]: a bundle whose body was replaced after a value was
    cached answers with the cached value, not with the hash of the body. *)
Example SBundle_Hash_answers_from_cache_sample :
  fst (SBundle_Hash (mkSBundle noInclusion [txBody tx1] noValidity (Some hashB)))
  = hashB
  /\ hashB <> bodyHash (txBody tx1).
Proof. split; [reflexivity|discriminate]. Qed.

(** C7 on a source whose subscriptions all fail: three rounds after [Stop],
    three subscriptions and three seconds slept, and the loop goes on. *)
Example subscription_goes_on_after_Stop_sample :
  SubscribeToPayloadAttributesEvents deadSource
    (OpBeaconClient_Stop (NewOpBeaconClient "http://localhost:8546")) 3
    noSubscription
  = Continue
      (mkSubscribeState 3 [] 3
         [ErrExternal "context canceled"; ErrExternal "context canceled";
          ErrExternal "context canceled"]).
Proof. reflexivity. Qed.

End OnSample.

(** * The further properties on the sample instance *)

Section MoreOnSample.
Import Sample.
#[local] Existing Instance externals.

(** X1 on two bundles that differ in everything but their transactions. *)
Lemma SBundle_Hash_depends_on_content_only_witness :
  Validity plainPair <> Validity flaggedPair
  /\ fst (SBundle_Hash plainPair) = fst (SBundle_Hash flaggedPair).
Proof.
  split; [discriminate|].
  apply SBundle_Hash_depends_on_content_only; reflexivity.
Defined.

(** X3 on a bundle of two transactions. *)
Lemma SBundle_Hash_flat_witness :
  fst (SBundle_Hash plainPair)
  = BytesToHash (keccak256 (BytesToHash tx1 ++ BytesToHash tx2)).
Proof.
  destruct (SBundle_Hash_flat plainPair [tx1; tx2] eq_refl eq_refl)
    as [_ Hdigest].
  rewrite Hdigest by discriminate. reflexivity.
Defined.

(** X4 on the empty bundle. *)
Lemma SBundle_Hash_empty_body_witness :
  fst (SBundle_Hash (bundleOf [])) = BytesToHash (keccak256 []).
Proof. exact (SBundle_Hash_empty_body (bundleOf []) eq_refl eq_refl). Defined.

(** X5 on a body with a transaction. *)
Lemma GetRefundConfig_not_empty_witness :
  GetRefundConfig (txBody tx1) signer = Ok [RefundConfig.mk addrF 100]
  /\ [RefundConfig.mk addrF 100] <> [].
Proof.
  split; [reflexivity|].
  exact (GetRefundConfig_not_empty signer (txBody tx1) eq_refl).
Defined.

(** X6 with a signer that rejects the transaction, two bundles deep. *)
Lemma GetRefundConfig_errors_witness :
  ErrExternal "invalid signature" = ErrIncorrectRefundConfig
  \/ exists tx,
       Sender rejectingSigner tx = Err (ErrExternal "invalid signature").
Proof.
  exact (GetRefundConfig_errors rejectingSigner
           (mkBundleBody None (Some twoElements) false) eq_refl).
Defined.

(** X8 on a bundle with a configuration and on one without. *)
Lemma RefundPercent_GetRefundConfig_witness :
  (exists c rest,
      BundleValidity.RefundConfig (Validity configured) = c :: rest
      /\ RefundConfig.Percent c = 90%Z
      /\ GetRefundConfig (mkBundleBody None (Some configured) false) signer
         = Ok (c :: rest))
  /\ GetRefundConfig (mkBundleBody None (Some oneTx) false) signer
     = GetRefundConfig (txBody tx1) signer.
Proof.
  split.
  - destruct (RefundPercent_GetRefundConfig signer configured false)
      as [Hsome _].
    exact (Hsome 90%Z eq_refl).
  - destruct (RefundPercent_GetRefundConfig signer oneTx false)
      as [_ Hnone].
    exact (proj2 (Hnone eq_refl)).
Defined.

(** X9 on a bundle without [MaxBlock]. *)
Lemma UnmarshalJSON_MarshalJSON_without_MaxBlock_witness :
  exists data,
    MarshalJSON openBundle = Ok data /\ UnmarshalJSON data = Ok openBundle.
Proof.
  apply UnmarshalJSON_MarshalJSON_without_MaxBlock.
  - reflexivity.
  - intros tx _. exists tx. split; reflexivity.
  - split; [discriminate|reflexivity].
  - repeat constructor.
Defined.

(** X10 on a bundle whose second transaction does not encode. *)
Lemma MarshalJSON_error_witness :
  @MarshalJSON strict brokenBundle
  = Err (ErrExternal "empty typed transaction bytes").
Proof.
  apply (proj2 (@MarshalJSON_error strict brokenBundle _)).
  exists [goodTx], emptyTx, [goodTx].
  split; [reflexivity|]. split; [|reflexivity].
  eexists. reflexivity.
Defined.

(** X11 on the same bundle as X9. *)
Lemma MarshalJSON_document_witness :
  exists data fields,
    MarshalJSON openBundle = Ok data
    /\ data = JObject fields
    /\ Json.lookup "txs" fields = Some (JArray [JData tx1; JData tx2])
    /\ Json.lookup "maxBlock" fields = None
    /\ Json.lookup "blockNumber" fields = Some (JQuantity 5).
Proof.
  assert (Hm : exists data, MarshalJSON openBundle = Ok data)
    by (eexists; reflexivity).
  destruct Hm as (data & Hm).
  destruct (MarshalJSON_document openBundle Hm)
    as (fields & raw & Hdata & Hraw & Htxs & Hmax & Hbn).
  exists data, fields. repeat split; try assumption.
  rewrite Htxs. do 2 f_equal.
  inversion Hraw as [|x y l l' Hx Hrest]; subst.
  inversion Hrest as [|x' y' l2 l2' Hx' Hrest']; subst.
  inversion Hrest'; subst.
  cbn in Hx, Hx'. injection Hx as <-. injection Hx' as <-. reflexivity.
Defined.


Lemma noStop_delivery : noStop delivery.
Proof. repeat constructor; discriminate. Qed.

(** X13: slots 5, 7 (rejected) and 6 leave [currentSlot] at 7. *)
Lemma dispatchLoop_highest_slot_witness :
  exists st',
    dispatchLoop started delivery = Continue st'
    /\ currentSlot st' = 7%N.
Proof.
  destruct (dispatchLoop_highest_slot started noStop_delivery)
    as (st' & Hloop & Hcur).
  exists st'. split; [exact Hloop|]. rewrite Hcur. reflexivity.
Defined.


(** X15: after slots 5, 7 (rejected) and 6 the stored record is that of
    slot 5. *)
Lemma dispatchLoop_store_moves_forward_witness :
  exists st',
    dispatchLoop started delivery = Continue st'
    /\ slotAttrs (api st') = attrsAt 5 hashA
    /\ (slotAttrs (api st') = slotAttrs (api started)
        \/ (In (Received (slotAttrs (api st'))) delivery
            /\ (BuilderPayloadAttributes.Slot (slotAttrs (api started))
                < BuilderPayloadAttributes.Slot (slotAttrs (api st')))%N
            /\ GetBlockByHash (b (api started))
                 (BuilderPayloadAttributes.HeadHash (slotAttrs (api st')))
               <> None)).
Proof.
  eexists. split; [reflexivity|]. split; [reflexivity|].
  apply (dispatchLoop_store_moves_forward started delivery).
  - cbn. lia.
  - left. reflexivity.
Defined.

(** X16: the entry logged for slot 7, whose parent is unknown. *)
Lemma dispatch_errorLog_entries_witness :
  exists st',
    dispatchRound started (Received (attrsAt 7 hashB)) = Continue st'
    /\ errorLog st'
       = [mkDispatchError 7 7 hashB (ErrParentNotFound hashB)]
    /\ Forall parentNotFoundEntry (errorLog st').
Proof.
  eexists. split; [reflexivity|]. split; [reflexivity|].
  apply (dispatch_errorLog_entries (st := started)).
  - constructor.
  - apply reaches_round with (st1 := started) (c := Received (attrsAt 7 hashB)).
    + apply reaches_here.
    + reflexivity.
Defined.

(** X17: slot 5 is accepted and the next build is built on it. *)
Lemma accepted_record_drives_build_witness :
  exists st',
    dispatchRound started (Received (attrsAt 5 hashA)) = Continue st'
    /\ snd (BuildEthBlock (api st') (Some callerArgs) [tx1])
       = [CallBuildBlockFromTxs
            (BuildBlockArgs.mk 5 hashA 1700 addrF 30000000 hashB [] hashB true
               [])
            [tx1]].
Proof.
  destruct (accepted_record_drives_build started (attrsAt 5 hashA)
              (parent := block1) (beaconRoot := hashB))
    as (st' & Hround & _ & Htxs & _).
  - cbn. lia.
  - reflexivity.
  - reflexivity.
  - exists st'. split; [exact Hround|]. exact (Htxs callerArgs [tx1]).
Defined.

(** X18: a record without beacon root is stored, and the build panics. *)
Lemma nil_beacon_root_is_stored_witness :
  fst (OnPayloadAttribute (apiAt 5) attrsWithoutRoot) = None
  /\ BuildEthBlock (snd (OnPayloadAttribute (apiAt 5) attrsWithoutRoot))
       (Some callerArgs) [tx1]
     = (Panicked NilPointerDereference, []).
Proof.
  destruct (nil_beacon_root_is_stored (apiAt 5) attrsWithoutRoot
              (parent := block1) eq_refl eq_refl) as (Hstored & Htxs & _).
  split; [exact Hstored|apply Htxs].
Defined.

(** X20 on the sample node, whose backend answers block 1 with profit 0. *)
Lemma build_outcome_is_backend_outcome_witness :
  fst (BuildEthBlock (apiAt 5) (Some callerArgs) [tx1])
  = Returned (block1, 0%Z).
Proof.
  destruct (build_outcome_is_backend_outcome (apiAt 5) callerArgs
              (beaconRoot := hashB) eq_refl) as (Htxs & _).
  rewrite Htxs. reflexivity.
Defined.

(** X24 on a source that never fails and on one that always fails. *)
Lemma subscription_loop_backoff_witness :
  (exists st',
      SubscribeToPayloadAttributesEvents quietSource localClient 4
        noSubscription = Continue st'
      /\ subscriptions st' = 4 /\ slept st' = 0)
  /\ (exists st',
        SubscribeToPayloadAttributesEvents deadSource localClient 4
          noSubscription = Continue st'
        /\ subscriptions st' = 4 /\ slept st' = 4).
Proof.
  split.
  - destruct (subscription_loop_backoff quietSource localClient 4
                noSubscription) as [Hquiet _].
    exact (Hquiet (fun n => eq_refl)).
  - destruct (subscription_loop_backoff deadSource localClient 4
                noSubscription) as [_ Hdead].
    apply Hdead. intros n. discriminate.
Defined.

(** X25: three failures, then a subscription with three events of which two
    parse. *)
Lemma subscription_loop_reconnects_witness :
  exists st',
    SubscribeToPayloadAttributesEvents flakySource localClient 4
      noSubscription = Continue st'
    /\ subscriptions st' = 4
    /\ sent st' = [attrsAt 5 hashA; attrsAt 6 hashA]
    /\ slept st' = 3.
Proof.
  apply (subscription_loop_reconnects flakySource localClient (k := 3)
           (events := [[x05]; []; [x06]])).
  - intros n Hn. destruct n as [|[|[|n]]]; try lia;
      (split; [reflexivity|discriminate]).
  - reflexivity.
Defined.

End MoreOnSample.
